(** * Few-shot prompt templates (langchain/prompts/few_shot.py)

    A shallow embedding of the example-acquisition mixin and of the two
    composers built on it, [FewShotPromptTemplate] (one formatted string) and
    [FewShotChatMessagePromptTemplate] (a list of chat messages), followed by
    the properties of the prose specification that can be stated on them.

    Python dictionaries are finite maps ([gmap string V]); a call that may
    raise returns a [Result]; the collaborators the module imports (example
    selectors, example templates, message templates, formatting engines) are
    records of functions or section variables. *)

From Stdlib Require Import String Ascii List.
From stdpp Require Import base option list gmap strings.

Set Default Proof Using "Type".
Open Scope string_scope.
Open Scope list_scope.

(** ** Exceptions and results *)

(** The exceptions the module raises itself are [ValueError] (configuration)
    and the [KeyError] of a failed subscript [e[k]]. Collaborators may raise
    those or anything else ([OtherError]); nothing in the module catches. *)
Inductive Exception : Type :=
| ValueError (msg : string)
| KeyError (key : string)
| OtherError (msg : string).

Inductive Result (A : Type) : Type :=
| Return (a : A)
| Raise (e : Exception).
Arguments Return {A} a.
Arguments Raise {A} e.

#[export] Instance Result_ret : MRet Result := fun A a => Return a.

#[export] Instance Result_bind : MBind Result := fun A B k m =>
  match m with
  | Return a => k a
  | Raise e => Raise e
  end.

#[export] Instance Result_fmap : FMap Result := fun A B f m =>
  match m with
  | Return a => Return (f a)
  | Raise e => Raise e
  end.

(** A list comprehension [[f(x) for x in l]] whose body may raise: elements
    are evaluated left to right and the first exception ends the loop. *)
Fixpoint comprehension {A B : Type} (f : A -> Result B) (l : list A)
  : Result (list B) :=
  match l with
  | [] => Return []
  | x :: l' =>
      y ← f x;
      ys ← comprehension f l';
      Return (y :: ys)
  end.

(** The nested comprehension [[y for x in l for y in f(x)]]. *)
Fixpoint nested_comprehension {A B : Type} (f : A -> Result (list B))
  (l : list A) : Result (list B) :=
  match l with
  | [] => Return []
  | x :: l' =>
      ys ← f x;
      rest ← nested_comprehension f l';
      Return (ys ++ rest)
  end.

(** Truth value of an optional list, as Python's [if] takes it: [None] and
    the empty list are false. *)
Definition truthy_list {A : Type} (o : option (list A)) : bool :=
  match o with
  | Some (_ :: _) => true
  | _ => false
  end.

(** ** Collaborators *)

(** [BaseExampleSelector]: given the input mapping, the examples to show.
    What a selector does inside is out of scope; a call may raise.
    [__bool__] is the truth value Python gives the object: true, unless its
    class defines [__bool__] or [__len__] and that says otherwise. *)
Module BaseExampleSelector.
Section WithValue.
Context {Value : Type}.

Record t : Type := {
  select_examples : gmap string Value -> Result (list (gmap string Value));
  __bool__ : bool
}.

End WithValue.
Arguments t Value : clear implicits.
End BaseExampleSelector.

(** Truth value of an optional selector, as Python's [if] takes it: [None]
    is false, a selector has the truth value of the object. *)
Definition truthy_selector {Value : Type}
  (o : option (BaseExampleSelector.t Value)) : bool :=
  match o with
  | Some s => BaseExampleSelector.__bool__ s
  | None => false
  end.

(** [PromptTemplate], as the string composer uses it: the declared
    variables and the rendering of one mapping into text. *)
Module PromptTemplate.
Section WithValue.
Context {Value : Type}.

Record t : Type := {
  input_variables : list string;
  format : gmap string Value -> Result string
}.

End WithValue.
Arguments t Value : clear implicits.
End PromptTemplate.

(** Chat messages are passed through as they are. *)
Inductive BaseMessage : Type :=
| SystemMessage (content : string)
| HumanMessage (content : string)
| AIMessage (content : string).

(** [BaseMessagePromptTemplate] / [BaseChatPromptTemplate], as the message
    composer uses them: the declared variables and the expansion of one
    mapping into messages. *)
Module MessageTemplate.
Section WithValue.
Context {Value : Type}.

Record t : Type := {
  input_variables : list string;
  format_messages : gmap string Value -> Result (list BaseMessage)
}.

End WithValue.
Arguments t Value : clear implicits.
End MessageTemplate.

(** ** The shared mixin *)

Module _FewShotPromptTemplateMixin.
Section WithValue.
Context {Value : Type}.

Record t : Type := {
  examples : option (list (gmap string Value));
  example_selector : option (BaseExampleSelector.t Value)
}.

(** The pre-validator: [values.get(k, None)] does not tell a missing key
    from an explicit [None], so the raw values are the two optional fields. *)
Definition check_examples_and_selector (values : t) : Result t :=
  if truthy_list (examples values)
     && truthy_selector (example_selector values)
  then Raise (ValueError
         "Only one of 'examples' and 'example_selector' should be provided")
  else
    match examples values, example_selector values with
    | None, None =>
        Raise (ValueError
          "One of 'examples' and 'example_selector' should be provided")
    | _, _ => Return values
    end.

Definition _get_examples (self : t) (kwargs : gmap string Value)
  : Result (list (gmap string Value)) :=
  match examples self with
  | Some l => Return l
  | None =>
      match example_selector self with
      | Some s => BaseExampleSelector.select_examples s kwargs
      | None =>
          Raise (ValueError
            "One of 'examples' and 'example_selector' should be provided")
      end
  end.

End WithValue.
Arguments t Value : clear implicits.
End _FewShotPromptTemplateMixin.

(** ** Projection of an example record *)

Section Projection.
Context {Value : Type}.

(** The comprehension [{k: e[k] for k in input_variables}]: the subscript
    raises [KeyError] at the first key the record lacks. *)
Fixpoint project_example (input_variables : list string)
  (e : gmap string Value) : Result (gmap string Value) :=
  match input_variables with
  | [] => Return ∅
  | k :: ks =>
      match e !! k with
      | None => Raise (KeyError k)
      | Some v =>
          m ← project_example ks e;
          Return (<[k:=v]> m)
      end
  end.

End Projection.

(** ** Helpers of [langchain.prompts.base] *)

Section Base.
Context {Value : Type}.

(** The placeholders a template text references under a template format;
    it belongs to the formatting engines, which are collaborators. *)
Variable template_variables : string -> string -> gset string.

(** Modelled from the spec: [check_valid_template] of
    [langchain.prompts.base], whose body is not among the sources. The
    template text must reference exactly the given variables: no placeholder
    outside them, none of them unused; otherwise a configuration error. *)
Definition check_valid_template (template template_format : string)
  (input_variables : list string) : Result unit :=
  if decide (template_variables template_format template
             = list_to_set input_variables)
  then Return tt
  else Raise (ValueError
         "Invalid prompt schema; check for mismatched or missing input parameters.").

(** Modelled from the spec: [_merge_partial_and_user_variables] of
    [BasePromptTemplate], whose body is not among the sources. Partial values
    fill the names the caller did not supply; the caller's value wins on a
    collision. *)
Definition _merge_partial_and_user_variables
  (partial_variables kwargs : gmap string Value) : gmap string Value :=
  kwargs ∪ partial_variables.

End Base.

(** Python's truth value of a string: only the empty string is false. *)
Definition truthy_str (s : string) : bool :=
  match s with
  | EmptyString => false
  | String _ _ => true
  end.

(** ** The string composer *)

Module FewShotPromptTemplate.
Section WithValue.
Context {Value : Type}.

Record t : Type := {
  mixin : _FewShotPromptTemplateMixin.t Value;
  validate_template : bool;
  input_variables : list string;
  example_prompt : PromptTemplate.t Value;
  suffix : string;
  example_separator : string;
  prefix : string;
  template_format : string;
  (* inherited from BasePromptTemplate *)
  partial_variables : gmap string Value
}.

Definition lc_serializable (self : t) : bool := false.

Definition _prompt_type (self : t) : string := "few_shot".

(** The table of formatting engines, by format name. *)
Variable DEFAULT_FORMATTER_MAPPING :
  gmap string (string -> gmap string Value -> Result string).

Variable template_variables : string -> string -> gset string.

Definition template_is_valid (values : t) : Result t :=
  if validate_template values then
    _ ← check_valid_template template_variables
          (prefix values +:+ suffix values)
          (template_format values)
          (input_variables values
             ++ (map_to_list (partial_variables values)).*1);
    Return values
  else Return values.

(** Modelled from the spec: the constructor, which pydantic generates and
    is not among the sources. Construction as the spec has it: the check of
    the example source, then the consistency check of the template; the
    instance is the validated values. The validators inherited from
    [BasePromptTemplate] and the validation of the fields are no part of
    it. *)
Definition __init__ (values : t) : Result t :=
  _ ← _FewShotPromptTemplateMixin.check_examples_and_selector (mixin values);
  template_is_valid values.

(** Lines 149-150: the pieces, the empty ones dropped, joined by the
    separator ([String.concat] is [str.join]). *)
Definition assemble (self : t) (example_strings : list string) : string :=
  let pieces := prefix self :: example_strings ++ [suffix self] in
  String.concat (example_separator self) (filter (fun piece => truthy_str piece) pieces).

Definition format (self : t) (kwargs : gmap string Value) : Result string :=
  let kwargs :=
    _merge_partial_and_user_variables (partial_variables self) kwargs in
  examples ← _FewShotPromptTemplateMixin._get_examples (mixin self) kwargs;
  examples ← comprehension
    (project_example (PromptTemplate.input_variables (example_prompt self)))
    examples;
  example_strings ← comprehension
    (PromptTemplate.format (example_prompt self)) examples;
  let template := assemble self example_strings in
  match DEFAULT_FORMATTER_MAPPING !! template_format self with
  | None => Raise (KeyError (template_format self))
  | Some formatter => formatter template kwargs
  end.

(** The inherited dump, reached through [super()]. *)
Context {DictArgs Serialized : Type}.
Variable super_dict : t -> DictArgs -> Result Serialized.

Definition dict (self : t) (kwargs : DictArgs) : Result Serialized :=
  if truthy_selector
       (_FewShotPromptTemplateMixin.example_selector (mixin self))
  then Raise (ValueError
         "Saving an example selector is not currently supported")
  else super_dict self kwargs.

End WithValue.
Arguments t Value : clear implicits.
End FewShotPromptTemplate.

(** ** The message composer *)

Module FewShotChatMessagePromptTemplate.
Section WithValue.
Context {Value : Type}.

(** An entry of [prefix] or [suffix]: a template (the [isinstance] test of
    lines 333 and 349 holds) or a message given as it is. *)
Inductive MessageLike : Type :=
| Template (template : MessageTemplate.t Value)
| Literal (message : BaseMessage).

Record t : Type := {
  mixin : _FewShotPromptTemplateMixin.t Value;
  prefix : list MessageLike;
  example_prompt : MessageTemplate.t Value;
  suffix : list MessageLike
}.

Definition lc_serializable (self : t) : bool := false.

(** Modelled from the spec: the constructor, which pydantic generates and
    is not among the sources. Construction as the spec has it: the check of
    the example source; the instance is the validated values. The inherited
    validators and the validation of the fields are no part of it. *)
Definition __init__ (values : t) : Result t :=
  _ ← _FewShotPromptTemplateMixin.check_examples_and_selector (mixin values);
  Return values.

(** The inner iterable of the comprehensions over [prefix] and [suffix]. *)
Definition expand (kwargs : gmap string Value) (template : MessageLike)
  : Result (list BaseMessage) :=
  match template with
  | Template tpl => MessageTemplate.format_messages tpl kwargs
  | Literal message => Return [message]
  end.

Definition format_messages (self : t) (kwargs : gmap string Value)
  : Result (list BaseMessage) :=
  examples ← _FewShotPromptTemplateMixin._get_examples (mixin self) kwargs;
  examples ← comprehension
    (project_example (MessageTemplate.input_variables (example_prompt self)))
    examples;
  prefix_messages ← nested_comprehension (expand kwargs) (prefix self);
  messages ← nested_comprehension
    (MessageTemplate.format_messages (example_prompt self)) examples;
  suffix_messages ← nested_comprehension (expand kwargs) (suffix self);
  Return (prefix_messages ++ messages ++ suffix_messages).

(** [get_buffer_string] of [langchain.schema.messages], the transcript of a
    list of messages; it is imported, and it may raise. *)
Variable get_buffer_string : list BaseMessage -> Result string.

Definition format (self : t) (kwargs : gmap string Value) : Result string :=
  messages ← format_messages self kwargs;
  get_buffer_string messages.

End WithValue.
Arguments t Value : clear implicits.
Arguments MessageLike Value : clear implicits.
End FewShotChatMessagePromptTemplate.

(** ** A formatting engine for the examples *)

(** Modelled from the spec: the engine registered under ["f-string"] in
    [DEFAULT_FORMATTER_MAPPING] of [langchain.prompts.base], which is not
    among the sources. It substitutes each placeholder [{name}] by the value
    bound to [name], a doubled brace stands for the brace itself, and an
    unbound placeholder fails with an error that names the variable. Format
    specifications and conversions are left out; values are strings. *)
Module FString.

Inductive piece : Type :=
| Text (c : ascii)
| Field (name : string).

(** [field] is [Some n] inside a placeholder whose name so far is [n]. *)
Fixpoint parse (field : option string) (s : string) : Result (list piece) :=
  match field, s with
  | None, EmptyString => Return []
  | Some _, EmptyString =>
      Raise (ValueError "expected '}' before end of string")
  | Some name, String "}"%char s' =>
      rest ← parse None s';
      Return (Field name :: rest)
  | Some name, String c s' => parse (Some (name +:+ String c EmptyString)) s'
  | None, String "{"%char (String "{"%char s') =>
      rest ← parse None s';
      Return (Text "{"%char :: rest)
  | None, String "{"%char s' => parse (Some EmptyString) s'
  | None, String "}"%char (String "}"%char s') =>
      rest ← parse None s';
      Return (Text "}"%char :: rest)
  | None, String "}"%char _ =>
      Raise (ValueError "Single '}' encountered in format string")
  | None, String c s' =>
      rest ← parse None s';
      Return (Text c :: rest)
  end.

Fixpoint substitute (kwargs : gmap string string) (pieces : list piece)
  : Result string :=
  match pieces with
  | [] => Return EmptyString
  | Text c :: rest =>
      out ← substitute kwargs rest;
      Return (String c out)
  | Field name :: rest =>
      match kwargs !! name with
      | None => Raise (KeyError name)
      | Some v =>
          out ← substitute kwargs rest;
          Return (v +:+ out)
      end
  end.

Definition formatter (template : string) (kwargs : gmap string string)
  : Result string :=
  pieces ← parse None template;
  substitute kwargs pieces.

Fixpoint fields (pieces : list piece) : list string :=
  match pieces with
  | [] => []
  | Text _ :: rest => fields rest
  | Field name :: rest => name :: fields rest
  end.

Definition variables (template : string) : gset string :=
  match parse None template with
  | Return pieces => list_to_set (fields pieces)
  | Raise _ => ∅
  end.

Definition DEFAULT_FORMATTER_MAPPING
  : gmap string (string -> gmap string string -> Result string) :=
  {[ "f-string" := formatter ]}.

Definition template_variables (template_format template : string)
  : gset string :=
  if decide (template_format = "f-string") then variables template else ∅.

(** A [PromptTemplate] over a template text, as [PromptTemplate(template=...,
    input_variables=...)] builds it. *)
Definition prompt (input_variables : list string) (template : string)
  : PromptTemplate.t string :=
  {| PromptTemplate.input_variables := input_variables;
     PromptTemplate.format := formatter template |}.

(** A message template over a template text, as
    [HumanMessagePromptTemplate.from_template] and its siblings build it:
    one message of the given role whose content is the formatted text. *)
Definition message_prompt (role : string -> BaseMessage)
  (input_variables : list string) (template : string)
  : MessageTemplate.t string :=
  {| MessageTemplate.input_variables := input_variables;
     MessageTemplate.format_messages := fun kwargs =>
       content ← formatter template kwargs;
       Return [role content] |}.

(** A chat template over message templates, as
    [ChatPromptTemplate.from_messages] builds it: the messages of each, in
    order. *)
Definition chat_prompt (input_variables : list string)
  (messages : list (MessageTemplate.t string)) : MessageTemplate.t string :=
  {| MessageTemplate.input_variables := input_variables;
     MessageTemplate.format_messages := fun kwargs =>
       nested_comprehension
         (fun m => MessageTemplate.format_messages m kwargs) messages |}.

End FString.

(** ** Replacing the example source of a composer *)

Section Updates.
Context {Value : Type}.

(** The composer [self] with the example source [m]; every other field is
    kept. *)
Definition string_with_mixin (self : FewShotPromptTemplate.t Value)
  (m : _FewShotPromptTemplateMixin.t Value) : FewShotPromptTemplate.t Value :=
  {| FewShotPromptTemplate.mixin := m;
     FewShotPromptTemplate.validate_template :=
       FewShotPromptTemplate.validate_template self;
     FewShotPromptTemplate.input_variables :=
       FewShotPromptTemplate.input_variables self;
     FewShotPromptTemplate.example_prompt :=
       FewShotPromptTemplate.example_prompt self;
     FewShotPromptTemplate.suffix := FewShotPromptTemplate.suffix self;
     FewShotPromptTemplate.example_separator :=
       FewShotPromptTemplate.example_separator self;
     FewShotPromptTemplate.prefix := FewShotPromptTemplate.prefix self;
     FewShotPromptTemplate.template_format :=
       FewShotPromptTemplate.template_format self;
     FewShotPromptTemplate.partial_variables :=
       FewShotPromptTemplate.partial_variables self |}.

Definition chat_with_mixin (self : FewShotChatMessagePromptTemplate.t Value)
  (m : _FewShotPromptTemplateMixin.t Value)
  : FewShotChatMessagePromptTemplate.t Value :=
  {| FewShotChatMessagePromptTemplate.mixin := m;
     FewShotChatMessagePromptTemplate.prefix :=
       FewShotChatMessagePromptTemplate.prefix self;
     FewShotChatMessagePromptTemplate.example_prompt :=
       FewShotChatMessagePromptTemplate.example_prompt self;
     FewShotChatMessagePromptTemplate.suffix :=
       FewShotChatMessagePromptTemplate.suffix self |}.

(** The composer [self] with the validation toggle set to [b]. *)
Definition string_with_validate (self : FewShotPromptTemplate.t Value)
  (b : bool) : FewShotPromptTemplate.t Value :=
  {| FewShotPromptTemplate.mixin := FewShotPromptTemplate.mixin self;
     FewShotPromptTemplate.validate_template := b;
     FewShotPromptTemplate.input_variables :=
       FewShotPromptTemplate.input_variables self;
     FewShotPromptTemplate.example_prompt :=
       FewShotPromptTemplate.example_prompt self;
     FewShotPromptTemplate.suffix := FewShotPromptTemplate.suffix self;
     FewShotPromptTemplate.example_separator :=
       FewShotPromptTemplate.example_separator self;
     FewShotPromptTemplate.prefix := FewShotPromptTemplate.prefix self;
     FewShotPromptTemplate.template_format :=
       FewShotPromptTemplate.template_format self;
     FewShotPromptTemplate.partial_variables :=
       FewShotPromptTemplate.partial_variables self |}.

(** The example source made of a list alone. *)
Definition static_examples (l : list (gmap string Value))
  : _FewShotPromptTemplateMixin.t Value :=
  {| _FewShotPromptTemplateMixin.examples := Some l;
     _FewShotPromptTemplateMixin.example_selector := None |}.

(** One record rendered by the example template of the string composer:
    projected, then formatted. *)
Definition rendered (example_prompt : PromptTemplate.t Value)
  (e : gmap string Value) : Result string :=
  project_example (PromptTemplate.input_variables example_prompt) e
    ≫= PromptTemplate.format example_prompt.

(** One record expanded by the example template of the message composer. *)
Definition expanded (example_prompt : MessageTemplate.t Value)
  (e : gmap string Value) : Result (list BaseMessage) :=
  project_example (MessageTemplate.input_variables example_prompt) e
    ≫= MessageTemplate.format_messages example_prompt.

(** A record cut down to the given keys. *)
Definition only_keys (keys : list string) (e : gmap string Value)
  : gmap string Value :=
  filter (fun kv => kv.1 ∈ keys) e.

(** A record lacks one of the keys. *)
Definition lacks_key (keys : list string) (e : gmap string Value) : Prop :=
  exists k, k ∈ keys /\ e !! k = None.

End Updates.

(** ** A composer to run *)

(** The default separator, two line feeds. *)
Definition default_separator : string :=
  String "010"%char (String "010"%char EmptyString).

(** A string composer over the engine of the examples: the given example
    template and examples between a fixed prefix and a suffix that asks the
    question of the inputs. *)
Definition qa_prompt (example_prompt : PromptTemplate.t string)
  (examples : list (gmap string string)) : FewShotPromptTemplate.t string :=
  {| FewShotPromptTemplate.mixin := static_examples examples;
     FewShotPromptTemplate.validate_template := true;
     FewShotPromptTemplate.input_variables := [ "input" ];
     FewShotPromptTemplate.example_prompt := example_prompt;
     FewShotPromptTemplate.suffix := "Q: {input}";
     FewShotPromptTemplate.example_separator := default_separator;
     FewShotPromptTemplate.prefix := "Answer the question.";
     FewShotPromptTemplate.template_format := "f-string";
     FewShotPromptTemplate.partial_variables := ∅ |}.

(** The same with the separator and the template format to choose, and no
    validation. *)
Definition qa_prompt_with (separator template_format : string)
  (example_prompt : PromptTemplate.t string)
  (examples : list (gmap string string)) : FewShotPromptTemplate.t string :=
  {| FewShotPromptTemplate.mixin := static_examples examples;
     FewShotPromptTemplate.validate_template := false;
     FewShotPromptTemplate.input_variables := [ "input" ];
     FewShotPromptTemplate.example_prompt := example_prompt;
     FewShotPromptTemplate.suffix := "Q: {input}";
     FewShotPromptTemplate.example_separator := separator;
     FewShotPromptTemplate.prefix := "Answer the question.";
     FewShotPromptTemplate.template_format := template_format;
     FewShotPromptTemplate.partial_variables := ∅ |}.

(** A selector that returns the same list whatever the inputs. *)
Definition constant_selector (l : list (gmap string string))
  : BaseExampleSelector.t string :=
  {| BaseExampleSelector.select_examples := fun _ => Return l;
     BaseExampleSelector.__bool__ := true |}.

(** A selector whose backend is out of reach. *)
Definition failing_selector : BaseExampleSelector.t string :=
  {| BaseExampleSelector.select_examples := fun _ =>
       Raise (OtherError "selector backend unreachable");
     BaseExampleSelector.__bool__ := true |}.


(** The example source made of a selector alone. *)
Definition selected_examples (s : BaseExampleSelector.t string)
  : _FewShotPromptTemplateMixin.t string :=
  {| _FewShotPromptTemplateMixin.examples := None;
     _FewShotPromptTemplateMixin.example_selector := Some s |}.

(** A message composer over the engine of the examples: a system message
    and a greeting template in front, question and answer per example, the
    question of the inputs behind. *)
Definition qa_chat (mixin : _FewShotPromptTemplateMixin.t string)
  : FewShotChatMessagePromptTemplate.t string :=
  {| FewShotChatMessagePromptTemplate.mixin := mixin;
     FewShotChatMessagePromptTemplate.prefix :=
       [ FewShotChatMessagePromptTemplate.Literal
           (SystemMessage "You are a helpful AI Assistant");
         FewShotChatMessagePromptTemplate.Template
           (FString.message_prompt SystemMessage [ "name" ]
              "You talk to {name}") ];
     FewShotChatMessagePromptTemplate.example_prompt :=
       FString.chat_prompt [ "q"; "a" ]
         [ FString.message_prompt HumanMessage [ "q" ] "{q}";
           FString.message_prompt AIMessage [ "a" ] "{a}" ];
     FewShotChatMessagePromptTemplate.suffix :=
       [ FewShotChatMessagePromptTemplate.Template
           (FString.message_prompt HumanMessage [ "input" ] "{input}") ] |}.

(** Renders a record as a question and its answer. *)
Definition qa_example : PromptTemplate.t string :=
  FString.prompt [ "q"; "a" ] "Q: {q} A: {a}".

(** Renders a record as the text it holds. *)
Definition text_example : PromptTemplate.t string :=
  FString.prompt [ "text" ] "{text}".

(** ** The vocabulary of the specification *)

(** Every piece after the first is preceded by exactly one separator. *)
Definition separated (sep : string) (pieces : list string) : string :=
  match pieces with
  | [] => EmptyString
  | p :: ps => p +:+ foldr (fun q acc => sep +:+ q +:+ acc) EmptyString ps
  end.

(** The pieces in order, the empty ones removed. *)
Fixpoint retained (pieces : list string) : list string :=
  match pieces with
  | [] => []
  | EmptyString :: ps => retained ps
  | p :: ps => p :: retained ps
  end.

(** Total length of a list of strings. *)
Definition total_length (pieces : list string) : nat :=
  foldr (fun p n => String.length p + n) 0 pieces.

(** An entry of a prefix or suffix and the messages it contributes: a
    literal message itself, a template its expansion with the inputs. *)
Inductive expands {Value : Type} (kwargs : gmap string Value)
  : FewShotChatMessagePromptTemplate.MessageLike Value
    -> list BaseMessage -> Prop :=
| expands_literal (m : BaseMessage) :
    expands kwargs (FewShotChatMessagePromptTemplate.Literal m) [m]
| expands_template (tpl : MessageTemplate.t Value) (ms : list BaseMessage) :
    MessageTemplate.format_messages tpl kwargs = Return ms ->
    expands kwargs (FewShotChatMessagePromptTemplate.Template tpl) ms.


(** Two records agree on a list of keys. *)
Definition agree_on {Value : Type} (keys : list string)
  (e e' : gmap string Value) : Prop :=
  Forall (fun k => e !! k = e' !! k) keys.

(** * Properties *)

(** ** The engine of the examples at work *)

Example fstring_formats :
  FString.formatter "Q: {q} {{ok}}" {[ "q" := "2+2" ]} = Return "Q: 2+2 {ok}".
Proof. vm_compute. reflexivity. Qed.

Example fstring_missing :
  FString.formatter "Q: {q}" (∅ : gmap string string) = Raise (KeyError "q").
Proof. vm_compute. reflexivity. Qed.

(** ** Comprehensions *)

Section ComprehensionFacts.
Context {A B C : Type}.

Lemma comprehension_Return (f : A -> Result B) (l : list A) (l' : list B) :
  comprehension f l = Return l' <-> Forall2 (fun x y => f x = Return y) l l'.
Proof.
  revert l'. induction l as [|x l IH]; intros l'; simpl.
  - split.
    + intros [= <-]. constructor.
    + intros H. inversion H. reflexivity.
  - split.
    + destruct (f x) as [y|e] eqn:Hx; simpl; [|discriminate].
      destruct (comprehension f l) as [ys|e] eqn:Hl; simpl; [|discriminate].
      intros [= <-]. constructor; [assumption|]. apply IH. reflexivity.
    + intros H. inversion H as [|? y ? ys Hx Hl]; subst.
      rewrite Hx. simpl. apply IH in Hl. rewrite Hl. reflexivity.
Qed.

Lemma comprehension_app (f : A -> Result B) (l1 l2 : list A) :
  comprehension f (l1 ++ l2) =
  ys1 ← comprehension f l1; ys2 ← comprehension f l2; Return (ys1 ++ ys2).
Proof.
  induction l1 as [|x l1 IH]; simpl.
  - destruct (comprehension f l2); reflexivity.
  - destruct (f x) as [y|e]; simpl; [|reflexivity].
    rewrite IH. destruct (comprehension f l1); simpl; [|reflexivity].
    destruct (comprehension f l2); reflexivity.
Qed.

Lemma nested_comprehension_Return (f : A -> Result (list B)) (l : list A)
  (yss : list (list B)) :
  Forall2 (fun x ys => f x = Return ys) l yss ->
  nested_comprehension f l = Return (concat yss).
Proof.
  induction 1 as [|x ys l yss Hx _ IH]; simpl; [reflexivity|].
  rewrite Hx. simpl. rewrite IH. reflexivity.
Qed.

Lemma nested_comprehension_inv (f : A -> Result (list B)) (l : list A)
  (ys : list B) :
  nested_comprehension f l = Return ys ->
  exists yss, Forall2 (fun x ys => f x = Return ys) l yss /\ ys = concat yss.
Proof.
  revert ys. induction l as [|x l IH]; intros ys; simpl.
  - intros [= <-]. exists []. split; [constructor|reflexivity].
  - destruct (f x) as [y|e] eqn:Hx; simpl; [|discriminate].
    destruct (nested_comprehension f l) as [rest|e] eqn:Hl; simpl;
      [|discriminate].
    intros [= <-]. destruct (IH rest eq_refl) as (yss & HF & ->).
    exists (y :: yss). split; [constructor; assumption|reflexivity].
Qed.

(** Two loops in a row over the same list succeed exactly when the
    composed body succeeds on every element. *)
Lemma comprehension_compose (f : A -> Result B) (g : B -> Result C)
  (l : list A) (zs : list C) :
  Forall2 (fun x z => (f x ≫= g) = Return z) l zs ->
  exists ys, comprehension f l = Return ys
             /\ Forall2 (fun y z => g y = Return z) ys zs.
Proof.
  induction 1 as [|x z l zs Hx _ (ys & Hys & HF)].
  - exists []. split; [reflexivity|constructor].
  - destruct (f x) as [y|e] eqn:Hfx; simpl in Hx; [|discriminate].
    exists (y :: ys). split.
    + simpl. rewrite Hfx. simpl. rewrite Hys. reflexivity.
    + constructor; assumption.
Qed.

End ComprehensionFacts.

(** ** The example source *)

Section MixinFacts.
Context {Value : Type}.
Import _FewShotPromptTemplateMixin.

Implicit Types (values self : _FewShotPromptTemplateMixin.t Value).
Implicit Types (s : BaseExampleSelector.t Value).
Implicit Types (l : list (gmap string Value)).

(** The pre-validator never changes the values it accepts. *)
Lemma check_examples_and_selector_Return values values' :
  check_examples_and_selector values = Return values' -> values' = values.
Proof.
  unfold check_examples_and_selector.
  destruct (truthy_list _ && truthy_selector _); [discriminate|].
  destruct (examples values), (example_selector values); congruence.
Qed.

(** Exactly one of the two given: accepted, an empty list included. *)
Lemma check_only_examples l :
  check_examples_and_selector {| examples := Some l; example_selector := None |}
  = Return {| examples := Some l; example_selector := None |}.
Proof. unfold check_examples_and_selector. simpl. by rewrite andb_false_r. Qed.

Lemma check_only_selector s :
  check_examples_and_selector {| examples := None; example_selector := Some s |}
  = Return {| examples := None; example_selector := Some s |}.
Proof. reflexivity. Qed.

(** Neither given: rejected. *)
Lemma check_neither :
  check_examples_and_selector
    ({| examples := None; example_selector := None |}
       : _FewShotPromptTemplateMixin.t Value)
  = Raise (ValueError
      "One of 'examples' and 'example_selector' should be provided").
Proof. reflexivity. Qed.

(** Both given, the list not empty and the selector true: rejected. *)
Lemma check_both_nonempty e l s :
  BaseExampleSelector.__bool__ s = true ->
  check_examples_and_selector
    {| examples := Some (e :: l); example_selector := Some s |}
  = Raise (ValueError
      "Only one of 'examples' and 'example_selector' should be provided").
Proof. unfold check_examples_and_selector. simpl. by intros ->. Qed.

(** Every failure of the pre-validator is a [ValueError]. *)
Lemma check_examples_and_selector_Raise values e :
  check_examples_and_selector values = Raise e -> exists msg, e = ValueError msg.
Proof.
  unfold check_examples_and_selector.
  destruct (truthy_list _ && truthy_selector _).
  - intros [= <-]. eauto.
  - destruct (examples values), (example_selector values);
      intros [= <-] || discriminate. eauto.
Qed.

(** C1, at the input where the code departs from it: an empty list of
    examples together with a selector. Both are provided, yet the
    pre-validator accepts the values, and so does the construction of either
    composer (for the string composer, with template validation switched
    off, whatever its other fields are). *)
Theorem check_accepts_empty_examples_with_selector :
  forall (s : BaseExampleSelector.t Value),
    let both := {| examples := Some []; example_selector := Some s |} in
    check_examples_and_selector both = Return both
    /\ (forall c : FewShotChatMessagePromptTemplate.t Value,
          FewShotChatMessagePromptTemplate.__init__ (chat_with_mixin c both)
          = Return (chat_with_mixin c both))
    /\ (forall (tv : string -> string -> gset string)
               (p : FewShotPromptTemplate.t Value),
          FewShotPromptTemplate.__init__ tv
            (string_with_validate (string_with_mixin p both) false)
          = Return (string_with_validate (string_with_mixin p both) false)).
Proof.
  intros s both. split; [reflexivity|]. split; intros; reflexivity.
Qed.

(** C2: with a list configured, [_get_examples] returns that very list
    whatever the inputs and whatever the selector field holds; with no list,
    it returns what the selector returns on the very same inputs. *)
Theorem get_examples_static_or_selected :
  (forall l (sel : option (BaseExampleSelector.t Value))
          (kwargs : gmap string Value),
      _get_examples {| examples := Some l; example_selector := sel |} kwargs
      = Return l)
  /\ (forall s (kwargs : gmap string Value),
        _get_examples {| examples := None; example_selector := Some s |} kwargs
        = BaseExampleSelector.select_examples s kwargs).
Proof. split; intros; reflexivity. Qed.

(** C8: values that passed the pre-validator have a list or a selector, so
    every call of [_get_examples] takes one of its first two branches: it
    returns the list, or it returns or raises exactly what the selector
    does. In particular any exception it raises is the selector's. *)
Theorem get_examples_defensive_branch_unreachable :
  forall values values' (kwargs : gmap string Value),
    check_examples_and_selector values = Return values' ->
    values' = values
    /\ (examples values' <> None \/ example_selector values' <> None)
    /\ ((exists l, examples values' = Some l
                   /\ _get_examples values' kwargs = Return l)
        \/ (exists s, examples values' = None
                      /\ example_selector values' = Some s
                      /\ _get_examples values' kwargs
                         = BaseExampleSelector.select_examples s kwargs))
    /\ (forall e, _get_examples values' kwargs = Raise e ->
          exists s, example_selector values' = Some s
                    /\ BaseExampleSelector.select_examples s kwargs = Raise e).
Proof.
  intros values values' kwargs Hcheck.
  pose proof (check_examples_and_selector_Return _ _ Hcheck) as ->.
  split; [reflexivity|].
  unfold check_examples_and_selector in Hcheck. unfold _get_examples.
  destruct (truthy_list _ && truthy_selector _); [discriminate|].
  destruct (examples values) as [l|], (example_selector values) as [s|];
    try discriminate.
  - split; [left; discriminate|]. split; [left; eauto|]. discriminate.
  - split; [left; discriminate|]. split; [left; eauto|]. discriminate.
  - split; [right; discriminate|]. split; [right; eauto|]. eauto.
Qed.

End MixinFacts.

(** C8 on the two-example list of the module's documentation: the values
    pass the pre-validator and no call of [_get_examples] raises. *)
Lemma get_examples_defensive_branch_unreachable_witness :
  let values :=
    {| _FewShotPromptTemplateMixin.examples :=
         Some [ {[ "input" := "2+2"; "output" := "4" ]};
                ({[ "input" := "2+3"; "output" := "5" ]} : gmap string string) ];
       _FewShotPromptTemplateMixin.example_selector := None |} in
  _FewShotPromptTemplateMixin.check_examples_and_selector values = Return values
  /\ forall kwargs e,
       _FewShotPromptTemplateMixin._get_examples values kwargs <> Raise e.
Proof.
  intros values. split; [reflexivity|].
  intros kwargs e He.
  destruct (get_examples_defensive_branch_unreachable values values kwargs
              eq_refl) as (_ & _ & _ & Hsel).
  destruct (Hsel e He) as (s & Hs & _). discriminate Hs.
Defined.

(** ** Strings and joining *)

Section StringFacts.

Lemma append_cons (c : ascii) (s t : string) :
  String c s +:+ t = String c (s +:+ t).
Proof. reflexivity. Qed.

Lemma append_empty_l (s : string) : EmptyString +:+ s = s.
Proof. reflexivity. Qed.

Lemma append_empty_r (s : string) : s +:+ EmptyString = s.
Proof.
  induction s as [|c s IH]; [reflexivity|]. by rewrite append_cons, IH.
Qed.

Lemma append_length (s t : string) :
  String.length (s +:+ t) = String.length s + String.length t.
Proof.
  induction s as [|c s IH]; [reflexivity|].
  rewrite append_cons. simpl. by rewrite IH.
Qed.

Lemma filter_truthy_retained (pieces : list string) :
  filter (fun piece => truthy_str piece) pieces = retained pieces.
Proof.
  induction pieces as [|p ps IH]; [reflexivity|].
  destruct p as [|c p].
  - rewrite filter_cons_False by (simpl; auto). exact IH.
  - rewrite filter_cons_True by (simpl; auto). simpl. by rewrite IH.
Qed.

Lemma retained_app (l1 l2 : list string) :
  retained (l1 ++ l2) = retained l1 ++ retained l2.
Proof.
  induction l1 as [|p l1 IH]; [reflexivity|].
  destruct p; simpl; by rewrite IH.
Qed.

Lemma retained_nonempty (pieces : list string) :
  Forall (fun p => p <> EmptyString) (retained pieces).
Proof.
  induction pieces as [|p ps IH]; [constructor|].
  destruct p; simpl; [assumption|]. constructor; [discriminate|assumption].
Qed.

Lemma retained_id (pieces : list string) :
  Forall (fun p => p <> EmptyString) pieces -> retained pieces = pieces.
Proof.
  induction 1 as [|p ps Hp _ IH]; [reflexivity|].
  destruct p; [congruence|]. simpl. by rewrite IH.
Qed.

(** [str.join] puts exactly one separator before every piece but the
    first. *)
Lemma concat_separated (sep : string) (pieces : list string) :
  String.concat sep pieces = separated sep pieces.
Proof.
  destruct pieces as [|p ps]; [reflexivity|].
  revert p. induction ps as [|q ps IH]; intros p.
  - simpl. by rewrite append_empty_r.
  - change (String.concat sep (p :: q :: ps))
      with (p +:+ sep +:+ String.concat sep (q :: ps)).
    rewrite IH. reflexivity.
Qed.

Lemma separated_length (sep : string) (pieces : list string) :
  String.length (separated sep pieces)
  = total_length pieces + (length pieces - 1) * String.length sep.
Proof.
  destruct pieces as [|p ps]; [reflexivity|].
  unfold separated. rewrite append_length. simpl.
  rewrite Nat.sub_0_r, <- Nat.add_assoc. f_equal.
  induction ps as [|q ps IH]; [reflexivity|].
  simpl. rewrite !append_length, IH. lia.
Qed.

End StringFacts.

(** ** Projection *)

Section ProjectionFacts.
Context {Value : Type}.
Implicit Types (e m : gmap string Value) (vars : list string).

Lemma project_example_lookup vars e m :
  project_example vars e = Return m ->
  forall k, m !! k = if decide (k ∈ vars) then e !! k else None.
Proof.
  revert m. induction vars as [|k0 ks IH]; intros m; simpl.
  - intros [= <-] k. rewrite lookup_empty.
    destruct (decide (k ∈ [])) as [Hin|]; [|reflexivity].
    by apply elem_of_nil in Hin.
  - destruct (e !! k0) as [v|] eqn:Hk0; [|discriminate].
    destruct (project_example ks e) as [m'|] eqn:Hm'; simpl; [|discriminate].
    intros [= <-] k. specialize (IH m' eq_refl k).
    destruct (decide (k0 = k)) as [->|Hne].
    + rewrite lookup_insert_eq, decide_True by left. by rewrite Hk0.
    + rewrite lookup_insert_ne by assumption. rewrite IH.
      destruct (decide (k ∈ ks)) as [Hin|Hnin].
      * rewrite decide_True by (by right). reflexivity.
      * rewrite decide_False; [reflexivity|].
        intros [?|?]%elem_of_cons; congruence.
Qed.

Lemma project_example_dom vars e m :
  project_example vars e = Return m -> dom m = list_to_set vars.
Proof.
  revert m. induction vars as [|k0 ks IH]; intros m; simpl.
  - intros [= <-]. apply dom_empty_L.
  - destruct (e !! k0) as [v|]; [|discriminate].
    destruct (project_example ks e) as [m'|]; simpl; [|discriminate].
    intros [= <-]. rewrite dom_insert_L, (IH m' eq_refl). reflexivity.
Qed.

Lemma project_example_agree vars e e' :
  agree_on vars e e' -> project_example vars e = project_example vars e'.
Proof.
  induction 1 as [|k ks Hk _ IH]; simpl; [reflexivity|].
  rewrite Hk, IH. reflexivity.
Qed.

(** A record cut down to the required keys agrees with the record. *)
Lemma agree_on_filter vars e :
  agree_on vars e (filter (fun kv => kv.1 ∈ vars) e).
Proof.
  apply Forall_forall. intros k Hk. rewrite map_lookup_filter.
  destruct (e !! k) as [v|]; simpl; [|reflexivity].
  by rewrite option_guard_True.
Qed.

Lemma project_example_missing vars e k :
  k ∈ vars -> e !! k = None ->
  exists k', k' ∈ vars /\ e !! k' = None
             /\ project_example vars e = Raise (KeyError k').
Proof.
  induction vars as [|k0 ks IH]; intros Hin Hk.
  - by apply elem_of_nil in Hin.
  - simpl. destruct (e !! k0) as [v|] eqn:Hk0.
    + apply elem_of_cons in Hin as [->|Hin]; [congruence|].
      destruct (IH Hin Hk) as (k' & Hk' & Hnone & Hraise).
      exists k'. split; [by right|]. split; [assumption|].
      rewrite Hraise. reflexivity.
    + exists k0. split; [left|]. split; [assumption|reflexivity].
Qed.

Lemma comprehension_project_agree vars (l l' : list (gmap string Value)) :
  Forall2 (agree_on vars) l l' ->
  comprehension (project_example vars) l
  = comprehension (project_example vars) l'.
Proof.
  induction 1 as [|e e' l l' He _ IH]; simpl; [reflexivity|].
  rewrite (project_example_agree _ _ _ He), IH. reflexivity.
Qed.

Lemma comprehension_project_missing vars (l : list (gmap string Value)) :
  Exists (fun e => exists k, k ∈ vars /\ e !! k = None) l ->
  exists e k, e ∈ l /\ k ∈ vars /\ e !! k = None
              /\ comprehension (project_example vars) l = Raise (KeyError k).
Proof.
  induction l as [|e0 l IH]; intros Hex.
  - by apply Exists_nil in Hex.
  - simpl. destruct (project_example vars e0) as [m|err] eqn:Hp.
    + apply Exists_cons in Hex as [(k & Hin & Hk)|Hex].
      * destruct (project_example_missing _ _ _ Hin Hk) as (? & _ & _ & Hr).
        congruence.
      * destruct (IH Hex) as (e & k & He & Hin & Hk & Hr).
        exists e, k. split; [by right|]. split; [assumption|].
        split; [assumption|]. simpl. rewrite Hr. reflexivity.
    + destruct (decide (Forall (fun k => is_Some (e0 !! k)) vars))
        as [Hall|Hnot].
      * exfalso. clear -Hp Hall.
        revert Hp. generalize err. induction Hall as [|k ks [v Hv] _ IHa];
          simpl; [discriminate|].
        rewrite Hv. intros err0.
        destruct (project_example ks e0) eqn:Hq; simpl; [discriminate|].
        intros _. by eapply IHa.
      * apply not_Forall_Exists in Hnot; [|intros k; apply _].
        apply Exists_exists in Hnot as (k & Hin & Hk).
        assert (e0 !! k = None) as Hnone.
        { destruct (e0 !! k) eqn:E; [|reflexivity]. exfalso. apply Hk. eauto. }
        destruct (project_example_missing _ _ _ Hin Hnone)
          as (k' & Hin' & Hnone' & Hr).
        exists e0, k'. split; [left|]. split; [assumption|].
        split; [assumption|]. rewrite Hr in Hp. injection Hp as <-.
        reflexivity.
Qed.

End ProjectionFacts.

(** ** The string composer *)

Section StringComposerFacts.
Context {Value : Type}.
Import FewShotPromptTemplate.

Variable MAPPING : gmap string (string -> gmap string Value -> Result string).

Implicit Types (self : FewShotPromptTemplate.t Value).
Implicit Types (kwargs : gmap string Value).
Implicit Types (l E : list (gmap string Value)) (rs : list string).

(** What [format] does once the examples are rendered. *)
Let finish self kwargs rs : Result string :=
  match MAPPING !! template_format self with
  | None => Raise (KeyError (template_format self))
  | Some formatter =>
      formatter (assemble self rs)
        (_merge_partial_and_user_variables (partial_variables self) kwargs)
  end.

Lemma format_steps self kwargs :
  format MAPPING self kwargs =
  E ← _FewShotPromptTemplateMixin._get_examples (mixin self)
        (_merge_partial_and_user_variables (partial_variables self) kwargs);
  rs ← (P ← comprehension
              (project_example
                 (PromptTemplate.input_variables (example_prompt self))) E;
        comprehension (PromptTemplate.format (example_prompt self)) P);
  finish self kwargs rs.
Proof.
  unfold format, finish.
  destruct (_FewShotPromptTemplateMixin._get_examples _ _) as [E|]; simpl;
    [|reflexivity].
  destruct (comprehension (project_example _) E) as [P|]; simpl;
    [|reflexivity].
  destruct (comprehension (PromptTemplate.format _) P); reflexivity.
Qed.

Lemma render_all (ep : PromptTemplate.t Value) E rs :
  Forall2 (fun e r => rendered ep e = Return r) E rs ->
  (P ← comprehension (project_example (PromptTemplate.input_variables ep)) E;
   comprehension (PromptTemplate.format ep) P) = Return rs.
Proof.
  intros HF. apply comprehension_compose in HF as (P & HP & HF).
  rewrite HP. simpl. by apply comprehension_Return.
Qed.

Lemma format_rendered self kwargs E rs :
  _FewShotPromptTemplateMixin._get_examples (mixin self)
    (_merge_partial_and_user_variables (partial_variables self) kwargs)
  = Return E ->
  Forall2 (fun e r => rendered (example_prompt self) e = Return r) E rs ->
  format MAPPING self kwargs = finish self kwargs rs.
Proof.
  intros HE HF. rewrite format_steps, HE. simpl.
  rewrite (render_all _ _ _ HF). reflexivity.
Qed.

Lemma assemble_separated self rs :
  assemble self rs
  = separated (example_separator self)
      (retained (prefix self :: rs ++ [suffix self])).
Proof.
  unfold assemble. by rewrite filter_truthy_retained, concat_separated.
Qed.

Lemma assemble_drops_empty self rs1 rs2 :
  assemble self (rs1 ++ EmptyString :: rs2) = assemble self (rs1 ++ rs2).
Proof.
  rewrite !assemble_separated. f_equal.
  change (prefix self :: (rs1 ++ EmptyString :: rs2) ++ [suffix self])
    with ((prefix self :: rs1 ++ EmptyString :: rs2) ++ [suffix self]).
  change (prefix self :: (rs1 ++ rs2) ++ [suffix self])
    with ((prefix self :: rs1 ++ rs2) ++ [suffix self]).
  rewrite !retained_app. f_equal.
  change (prefix self :: rs1 ++ EmptyString :: rs2)
    with ((prefix self :: rs1) ++ EmptyString :: rs2).
  change (prefix self :: rs1 ++ rs2) with ((prefix self :: rs1) ++ rs2).
  by rewrite !retained_app.
Qed.

(** C3: with the examples [E] rendered in order into [rs], the text handed
    to the formatting engine is [prefix], [rs], [suffix] with the empty
    pieces removed and exactly one separator before every retained piece
    but the first. The i-th rendered string is the rendering of the i-th
    example; the separators number one less than the retained pieces; an
    empty prefix or suffix leaves the text of the other pieces alone; and
    when no piece is empty the text is the prefix, then every example and
    the suffix, each behind one separator. *)
Theorem format_assembles_pieces_in_order :
  forall self kwargs E rs,
    _FewShotPromptTemplateMixin._get_examples (mixin self)
      (_merge_partial_and_user_variables (partial_variables self) kwargs)
    = Return E ->
    Forall2 (fun e r => rendered (example_prompt self) e = Return r) E rs ->
    let sep := example_separator self in
    let kept := retained (prefix self :: rs ++ [suffix self]) in
    format MAPPING self kwargs
    = match MAPPING !! template_format self with
      | None => Raise (KeyError (template_format self))
      | Some formatter =>
          formatter (separated sep kept)
            (_merge_partial_and_user_variables (partial_variables self) kwargs)
      end
    /\ assemble self rs = separated sep kept
    /\ String.length (separated sep kept)
       = total_length kept + (length kept - 1) * String.length sep
    /\ (prefix self = EmptyString -> kept = retained (rs ++ [suffix self]))
    /\ (suffix self = EmptyString -> kept = retained (prefix self :: rs))
    /\ (prefix self <> EmptyString -> suffix self <> EmptyString ->
        Forall (fun r => r <> EmptyString) rs ->
        separated sep kept
        = prefix self
          +:+ foldr (fun q acc => sep +:+ q +:+ acc) EmptyString
                (rs ++ [suffix self])).
Proof.
  intros self kwargs E rs HE HF sep kept.
  split.
  { rewrite (format_rendered _ _ _ _ HE HF). unfold finish.
    by rewrite assemble_separated. }
  split; [apply assemble_separated|].
  split; [apply separated_length|].
  split; [intros Hp; subst kept; by rewrite Hp|].
  split.
  { intros Hs. subst kept. rewrite Hs.
    change (prefix self :: rs ++ [EmptyString])
      with ((prefix self :: rs) ++ [EmptyString]).
    rewrite retained_app. simpl. by rewrite app_nil_r. }
  intros Hp Hs Hrs. subst kept. rewrite retained_id; [reflexivity|].
  constructor; [assumption|]. apply Forall_app. split; [assumption|].
  by constructor.
Qed.

Lemma render_all_skip (ep : PromptTemplate.t Value) l1 e l2 :
  rendered ep e = Return EmptyString ->
  let pipe := fun l =>
    P ← comprehension (project_example (PromptTemplate.input_variables ep)) l;
    comprehension (PromptTemplate.format ep) P in
  (exists err, pipe (l1 ++ e :: l2) = Raise err /\ pipe (l1 ++ l2) = Raise err)
  \/ (exists rs1 rs2, pipe (l1 ++ e :: l2) = Return (rs1 ++ EmptyString :: rs2)
                      /\ pipe (l1 ++ l2) = Return (rs1 ++ rs2)).
Proof.
  intros He pipe. subst pipe. cbv beta. unfold rendered in He.
  destruct (project_example _ e) as [p|] eqn:Hp; simpl in He; [|discriminate].
  rewrite !comprehension_app. simpl comprehension. rewrite Hp.
  destruct (comprehension _ l1) as [P1|err]; simpl; [|left; eauto].
  destruct (comprehension _ l2) as [P2|err]; simpl; [|left; eauto].
  rewrite !comprehension_app. simpl comprehension. rewrite He.
  destruct (comprehension _ P1) as [rs1|err]; simpl; [|left; eauto].
  destruct (comprehension _ P2) as [rs2|err]; simpl; [|left; eauto].
  right. eauto.
Qed.

(** C9: an example that renders to the empty string leaves no trace.
    Formatting with it in the list gives the result of formatting with it
    taken out, and in the assembled text an empty rendered string between
    the others adds neither text nor a separator. *)
Theorem format_drops_empty_rendered_example :
  forall self kwargs l1 e l2,
    rendered (example_prompt self) e = Return EmptyString ->
    format MAPPING (string_with_mixin self (static_examples (l1 ++ e :: l2)))
      kwargs
    = format MAPPING (string_with_mixin self (static_examples (l1 ++ l2)))
        kwargs
    /\ forall rs1 rs2,
         assemble self (rs1 ++ EmptyString :: rs2) = assemble self (rs1 ++ rs2).
Proof.
  intros self kwargs l1 e l2 He. split; [|apply assemble_drops_empty].
  rewrite !format_steps. simpl.
  destruct (render_all_skip _ l1 e l2 He)
    as [(err & -> & ->)|(rs1 & rs2 & -> & ->)]; [reflexivity|].
  simpl. unfold finish. simpl.
  change (assemble (string_with_mixin self ?m) ?rs) with (assemble self rs).
  by rewrite assemble_drops_empty.
Qed.

(** Every piece that is kept occurs in the joined text. *)
Lemma separated_contains (sep : string) (pieces : list string) (p : string) :
  p ∈ pieces -> exists a b, separated sep pieces = a +:+ p +:+ b.
Proof.
  intros Hin. destruct pieces as [|p0 ps]; [by apply elem_of_nil in Hin|].
  apply elem_of_cons in Hin as [->|Hin].
  { exists EmptyString. eexists. unfold separated. reflexivity. }
  unfold separated.
  enough (exists a b, foldr (fun q acc => sep +:+ q +:+ acc) EmptyString ps
                      = a +:+ p +:+ b) as (a & b & ->).
  { exists (p0 +:+ a), b. clear. induction p0 as [|c p0 IH]; [reflexivity|].
    rewrite !append_cons. by rewrite IH. }
  induction ps as [|q ps IH]; [by apply elem_of_nil in Hin|].
  apply elem_of_cons in Hin as [->|Hin]; simpl.
  - exists sep. eauto.
  - destruct (IH Hin) as (a & b & ->).
    exists (sep +:+ q +:+ a), b. clear.
    induction sep as [|c sep IHs]; simpl.
    + rewrite !append_empty_l. clear. induction q as [|c q IHq];
        [reflexivity|]. rewrite !append_cons. by rewrite IHq.
    + rewrite !append_cons. by rewrite IHs.
Qed.

(** C10: the rendered examples are inside the text that the top-level
    engine formats. With the examples [E] rendered into [rs] and an engine
    registered for the template format, the result of [format] is that
    engine's result on the assembled text with the merged inputs, and every
    rendered example occurs in that text; so whatever the engine does to
    placeholder-like text, it does to the text of the examples too. *)
Theorem format_engine_sees_rendered_examples :
  forall self kwargs E rs formatter,
    _FewShotPromptTemplateMixin._get_examples (mixin self)
      (_merge_partial_and_user_variables (partial_variables self) kwargs)
    = Return E ->
    Forall2 (fun e r => rendered (example_prompt self) e = Return r) E rs ->
    MAPPING !! template_format self = Some formatter ->
    format MAPPING self kwargs
    = formatter (assemble self rs)
        (_merge_partial_and_user_variables (partial_variables self) kwargs)
    /\ forall r, r ∈ rs -> exists a b, assemble self rs = a +:+ r +:+ b.
Proof.
  intros self kwargs E rs formatter HE HF Hfmt. split.
  { rewrite (format_rendered _ _ _ _ HE HF). unfold finish. by rewrite Hfmt. }
  intros r Hr. destruct r as [|c r].
  { exists (assemble self rs), EmptyString.
    by rewrite append_empty_l, append_empty_r. }
  rewrite assemble_separated. apply separated_contains.
  change (prefix self :: rs ++ [suffix self])
    with ((prefix self :: rs) ++ [suffix self]).
  rewrite retained_app. apply elem_of_app. left.
  assert (forall ps : list string, String c r ∈ ps -> String c r ∈ retained ps)
    as Hkeep.
  { induction ps as [|q ps IH]; intros Hq; [by apply elem_of_nil in Hq|].
    apply elem_of_cons in Hq as [<-|Hq]; [left|].
    destruct q; simpl; [auto|right; auto]. }
  apply Hkeep. by right.
Qed.

(** Formatting never looks at the validation toggle. *)
Lemma format_ignores_validate_template self kwargs (b : bool) :
  format MAPPING (string_with_validate self b) kwargs
  = format MAPPING self kwargs.
Proof. reflexivity. Qed.

End StringComposerFacts.

(** ** The message composer *)

Section MessageComposerFacts.
Context {Value : Type}.
Import FewShotChatMessagePromptTemplate.

Implicit Types (self : FewShotChatMessagePromptTemplate.t Value).
Implicit Types (kwargs : gmap string Value).
Implicit Types (l E : list (gmap string Value)).

Lemma expand_expands kwargs (entry : MessageLike Value) ms :
  expands kwargs entry ms <-> expand kwargs entry = Return ms.
Proof.
  split.
  - intros [m|tpl ms' H]; [reflexivity|exact H].
  - destruct entry as [tpl|m]; simpl.
    + by constructor.
    + intros [= <-]. constructor.
Qed.

Lemma expand_all kwargs (entries : list (MessageLike Value)) mss :
  Forall2 (expands kwargs) entries mss ->
  nested_comprehension (expand kwargs) entries = Return (concat mss).
Proof.
  intros HF. apply nested_comprehension_Return.
  eapply Forall2_impl; [exact HF|]. intros entry ms. apply expand_expands.
Qed.

Lemma expand_examples (ep : MessageTemplate.t Value) E mss :
  Forall2 (fun e ms => expanded ep e = Return ms) E mss ->
  exists P,
    comprehension (project_example (MessageTemplate.input_variables ep)) E
    = Return P
    /\ nested_comprehension (MessageTemplate.format_messages ep) P
       = Return (concat mss).
Proof.
  intros HF. apply comprehension_compose in HF as (P & HP & HF).
  exists P. split; [assumption|]. by apply nested_comprehension_Return.
Qed.

(** C4: the result is the messages of the prefix, then those of the
    examples, then those of the suffix. A literal entry contributes itself,
    a template entry its expansion with the inputs; the examples contribute
    their expansions by [example_prompt] in the order of the list, each
    expansion kept whole and in its own order. *)
Theorem format_messages_concatenates :
  forall self kwargs E pms mss sms,
    _FewShotPromptTemplateMixin._get_examples (mixin self) kwargs = Return E ->
    Forall2 (expands kwargs) (prefix self) pms ->
    Forall2 (fun e ms => expanded (example_prompt self) e = Return ms) E mss ->
    Forall2 (expands kwargs) (suffix self) sms ->
    format_messages self kwargs
    = Return (concat pms ++ concat mss ++ concat sms).
Proof.
  intros self kwargs E pms mss sms HE Hp Hm Hs.
  unfold format_messages. rewrite HE. simpl.
  destruct (expand_examples _ _ _ Hm) as (P & -> & HP). simpl.
  rewrite (expand_all _ _ _ Hp). simpl. rewrite HP. simpl.
  rewrite (expand_all _ _ _ Hs). reflexivity.
Qed.

End MessageComposerFacts.

(** The two-message example of the module's documentation: a literal system
    message in front, one example expanded into a human and an AI message,
    and a human template behind, filled from the inputs. *)
Lemma format_messages_concatenates_witness :
  let M0 := SystemMessage "You are a helpful AI Assistant" in
  let self :=
    {| FewShotChatMessagePromptTemplate.mixin :=
         static_examples [ {[ "input" := "2+2"; "output" := "4" ]} ];
       FewShotChatMessagePromptTemplate.prefix :=
         [ FewShotChatMessagePromptTemplate.Literal M0 ];
       FewShotChatMessagePromptTemplate.example_prompt :=
         FString.chat_prompt [ "input"; "output" ]
           [ FString.message_prompt HumanMessage [ "input" ] "{input}";
             FString.message_prompt AIMessage [ "output" ] "{output}" ];
       FewShotChatMessagePromptTemplate.suffix :=
         [ FewShotChatMessagePromptTemplate.Template
             (FString.message_prompt HumanMessage [ "input" ] "{input}") ] |} in
  FewShotChatMessagePromptTemplate.format_messages self
    {[ "input" := "What is 4+4?" ]}
  = Return [ M0; HumanMessage "2+2"; AIMessage "4";
             HumanMessage "What is 4+4?" ].
Proof.
  intros M0 self.
  apply (format_messages_concatenates self {[ "input" := "What is 4+4?" ]}
           [ {[ "input" := "2+2"; "output" := "4" ]} ]
           [ [ M0 ] ]
           [ [ HumanMessage "2+2"; AIMessage "4" ] ]
           [ [ HumanMessage "What is 4+4?" ] ]).
  - reflexivity.
  - repeat constructor.
  - constructor; [vm_compute; reflexivity|constructor].
  - constructor; [|constructor]. apply expands_template.
    vm_compute. reflexivity.
Defined.

(** ** Projection in both composers *)

Section BothComposers.
Context {Value : Type}.

Lemma agree_on_only_keys (vars : list string) (l : list (gmap string Value)) :
  Forall2 (agree_on vars) l (only_keys vars <$> l).
Proof.
  induction l as [|e l IH]; [constructor|].
  rewrite fmap_cons. constructor; [apply agree_on_filter|exact IH].
Qed.

(** C5: both composers cut every record down to the keys of
    [example_prompt.input_variables] before rendering. The projected record
    has exactly those keys with the record's values; a list of records with
    extra keys formats as the list of the records cut down to the required
    keys; and when some record lacks a required key the result is the
    [KeyError] of a missing key, the same whatever the example template, the
    prefix and suffix or the formatting engine would do. *)
Theorem examples_projected_before_rendering :
  forall (vars : list string) (l : list (gmap string Value)),
    (forall e m : gmap string Value, project_example vars e = Return m ->
       dom m = list_to_set vars
       /\ forall k : string, k ∈ vars -> m !! k = e !! k)
    /\ (forall MAPPING (sp : FewShotPromptTemplate.t Value) kwargs,
          PromptTemplate.input_variables
            (FewShotPromptTemplate.example_prompt sp) = vars ->
          FewShotPromptTemplate.format MAPPING
            (string_with_mixin sp (static_examples l)) kwargs
          = FewShotPromptTemplate.format MAPPING
              (string_with_mixin sp (static_examples (only_keys vars <$> l)))
              kwargs)
    /\ (forall (cp : FewShotChatMessagePromptTemplate.t Value) kwargs,
          MessageTemplate.input_variables
            (FewShotChatMessagePromptTemplate.example_prompt cp) = vars ->
          FewShotChatMessagePromptTemplate.format_messages
            (chat_with_mixin cp (static_examples l)) kwargs
          = FewShotChatMessagePromptTemplate.format_messages
              (chat_with_mixin cp (static_examples (only_keys vars <$> l)))
              kwargs)
    /\ (Exists (lacks_key vars) l ->
        exists (e : gmap string Value) (k : string),
          e ∈ l /\ k ∈ vars /\ e !! k = None
          /\ (forall MAPPING (sp : FewShotPromptTemplate.t Value) kwargs,
                PromptTemplate.input_variables
                  (FewShotPromptTemplate.example_prompt sp) = vars ->
                FewShotPromptTemplate.format MAPPING
                  (string_with_mixin sp (static_examples l)) kwargs
                = Raise (KeyError k))
          /\ (forall (cp : FewShotChatMessagePromptTemplate.t Value) kwargs,
                MessageTemplate.input_variables
                  (FewShotChatMessagePromptTemplate.example_prompt cp) = vars ->
                FewShotChatMessagePromptTemplate.format_messages
                  (chat_with_mixin cp (static_examples l)) kwargs
                = Raise (KeyError k))).
Proof.
  intros vars l. split; [|split; [|split]].
  - intros e m Hm. split; [by eapply project_example_dom|].
    intros k Hk. rewrite (project_example_lookup _ _ _ Hm k).
    by rewrite decide_True.
  - intros MAPPING sp kwargs Hvars.
    unfold FewShotPromptTemplate.format. simpl. rewrite Hvars.
    by rewrite (comprehension_project_agree _ _ _ (agree_on_only_keys vars l)).
  - intros cp kwargs Hvars.
    unfold FewShotChatMessagePromptTemplate.format_messages. simpl.
    rewrite Hvars.
    by rewrite (comprehension_project_agree _ _ _ (agree_on_only_keys vars l)).
  - intros Hex.
    destruct (comprehension_project_missing vars l Hex)
      as (e & k & He & Hk & Hnone & Hraise).
    exists e, k. split; [assumption|]. split; [assumption|].
    split; [assumption|]. split.
    + intros MAPPING sp kwargs Hvars.
      unfold FewShotPromptTemplate.format. simpl. rewrite Hvars, Hraise.
      reflexivity.
    + intros cp kwargs Hvars.
      unfold FewShotChatMessagePromptTemplate.format_messages. simpl.
      rewrite Hvars, Hraise. reflexivity.
Qed.

End BothComposers.

(** ** The composers at work *)

(** C3 on three examples: they appear in their order, one separator
    between neighbours, between the prefix and the suffix. *)
Lemma format_assembles_pieces_in_order_witness :
  let E := [ {[ "q" := "1+1"; "a" := "2" ]};
             {[ "q" := "2+2"; "a" := "4" ]};
             ({[ "q" := "3+3"; "a" := "6" ]} : gmap string string) ] in
  FewShotPromptTemplate.format FString.DEFAULT_FORMATTER_MAPPING
    (qa_prompt qa_example E) {[ "input" := "4+4" ]}
  = Return ("Answer the question." +:+ default_separator
            +:+ "Q: 1+1 A: 2" +:+ default_separator
            +:+ "Q: 2+2 A: 4" +:+ default_separator
            +:+ "Q: 3+3 A: 6" +:+ default_separator
            +:+ "Q: 4+4").
Proof.
  intros E.
  destruct (format_assembles_pieces_in_order
              FString.DEFAULT_FORMATTER_MAPPING
              (qa_prompt qa_example E) {[ "input" := "4+4" ]} E
              [ "Q: 1+1 A: 2"; "Q: 2+2 A: 4"; "Q: 3+3 A: 6" ]) as (Hfmt & _).
  - reflexivity.
  - repeat (constructor; [vm_compute; reflexivity|]). constructor.
  - rewrite Hfmt. vm_compute. reflexivity.
Defined.

(** C9 on an example whose text is empty, between two others. *)
Lemma format_drops_empty_rendered_example_witness :
  let e1 := ({[ "text" := "first" ]} : gmap string string) in
  let e2 := ({[ "text" := "second" ]} : gmap string string) in
  let empty := ({[ "text" := "" ]} : gmap string string) in
  rendered text_example empty = Return ""
  /\ FewShotPromptTemplate.format FString.DEFAULT_FORMATTER_MAPPING
       (qa_prompt text_example [ e1; empty; e2 ]) {[ "input" := "4+4" ]}
     = FewShotPromptTemplate.format FString.DEFAULT_FORMATTER_MAPPING
         (qa_prompt text_example [ e1; e2 ]) {[ "input" := "4+4" ]}.
Proof.
  intros e1 e2 empty. split; [vm_compute; reflexivity|].
  apply (format_drops_empty_rendered_example
           FString.DEFAULT_FORMATTER_MAPPING
           (qa_prompt text_example []) {[ "input" := "4+4" ]}
           [ e1 ] empty [ e2 ]).
  vm_compute. reflexivity.
Defined.

(** C10 on an example whose text is itself a placeholder: the top-level
    engine fills it from the inputs, and fails when the inputs lack it. *)
Lemma format_engine_sees_rendered_examples_witness :
  let E := [ ({[ "text" := "{name}" ]} : gmap string string) ] in
  rendered text_example {[ "text" := "{name}" ]} = Return "{name}"
  /\ FewShotPromptTemplate.format FString.DEFAULT_FORMATTER_MAPPING
       (qa_prompt text_example E) {[ "input" := "4+4"; "name" := "Ada" ]}
     = Return ("Answer the question." +:+ default_separator
               +:+ "Ada" +:+ default_separator +:+ "Q: 4+4")
  /\ FewShotPromptTemplate.format FString.DEFAULT_FORMATTER_MAPPING
       (qa_prompt text_example E) {[ "input" := "4+4" ]}
     = Raise (KeyError "name").
Proof.
  intros E. split; [vm_compute; reflexivity|]. split.
  - destruct (format_engine_sees_rendered_examples
                FString.DEFAULT_FORMATTER_MAPPING
                (qa_prompt text_example E)
                {[ "input" := "4+4"; "name" := "Ada" ]} E [ "{name}" ]
                FString.formatter) as (Hfmt & _).
    + reflexivity.
    + constructor; [vm_compute; reflexivity|constructor].
    + vm_compute. reflexivity.
    + rewrite Hfmt. vm_compute. reflexivity.
  - destruct (format_engine_sees_rendered_examples
                FString.DEFAULT_FORMATTER_MAPPING
                (qa_prompt text_example E)
                {[ "input" := "4+4" ]} E [ "{name}" ]
                FString.formatter) as (Hfmt & _).
    + reflexivity.
    + constructor; [vm_compute; reflexivity|constructor].
    + vm_compute. reflexivity.
    + rewrite Hfmt. vm_compute. reflexivity.
Defined.

(** C5 on a list whose second record lacks a key: the key error comes out,
    and an extra key in a record changes nothing. *)
Lemma examples_projected_before_rendering_witness :
  let full := ({[ "q" := "1+1"; "a" := "2" ]} : gmap string string) in
  let short := ({[ "q" := "2+2" ]} : gmap string string) in
  let noted :=
    ({[ "q" := "1+1"; "a" := "2"; "note" := "easy" ]} : gmap string string) in
  Exists (lacks_key [ "q"; "a" ]) [ full; short ]
  /\ FewShotPromptTemplate.format FString.DEFAULT_FORMATTER_MAPPING
       (qa_prompt qa_example [ full; short ]) {[ "input" := "4+4" ]}
     = Raise (KeyError "a")
  /\ FewShotPromptTemplate.format FString.DEFAULT_FORMATTER_MAPPING
       (qa_prompt qa_example [ noted ]) {[ "input" := "4+4" ]}
     = FewShotPromptTemplate.format FString.DEFAULT_FORMATTER_MAPPING
         (qa_prompt qa_example [ full ]) {[ "input" := "4+4" ]}.
Proof.
  intros full short noted.
  assert (Exists (lacks_key [ "q"; "a" ]) [ full; short ]) as Hex.
  { apply Exists_cons_tl, Exists_cons_hd. exists "a". split.
    - right. left.
    - vm_compute. reflexivity. }
  split; [exact Hex|]. split.
  - destruct (examples_projected_before_rendering [ "q"; "a" ] [ full; short ])
      as (_ & _ & _ & Hmiss).
    destruct (Hmiss Hex) as (e & k & _ & _ & _ & Hs & _).
    specialize (Hs FString.DEFAULT_FORMATTER_MAPPING
                  (qa_prompt qa_example []) {[ "input" := "4+4" ]} eq_refl).
    change (string_with_mixin (qa_prompt qa_example [])
              (static_examples [ full; short ]))
      with (qa_prompt qa_example [ full; short ]) in Hs.
    rewrite Hs. revert Hs. vm_compute. intros [= <-]. reflexivity.
  - destruct (examples_projected_before_rendering [ "q"; "a" ] [ noted ])
      as (_ & Hsame & _).
    specialize (Hsame FString.DEFAULT_FORMATTER_MAPPING
                  (qa_prompt qa_example []) {[ "input" := "4+4" ]} eq_refl).
    change (string_with_mixin (qa_prompt qa_example [])
              (static_examples [ noted ]))
      with (qa_prompt qa_example [ noted ]) in Hsame.
    rewrite Hsame. vm_compute. reflexivity.
Defined.

(** ** Validation and serialization of the string composer *)

Section StringConfiguration.
Context {Value : Type}.
Import FewShotPromptTemplate.

Variable template_variables : string -> string -> gset string.

Implicit Types (values self : FewShotPromptTemplate.t Value).

(** With the toggle off the validator checks nothing. *)
Lemma template_is_valid_off values :
  validate_template values = false ->
  template_is_valid template_variables values = Return values.
Proof. unfold template_is_valid. by intros ->. Qed.

(** With the toggle on it accepts exactly the consistent templates. *)
Lemma template_is_valid_on values :
  validate_template values = true ->
  template_is_valid template_variables values
  = if decide (template_variables (template_format values)
                 (prefix values +:+ suffix values)
               = list_to_set (input_variables values
                              ++ (map_to_list (partial_variables values)).*1))
    then Return values
    else Raise (ValueError
           "Invalid prompt schema; check for mismatched or missing input parameters.").
Proof.
  unfold template_is_valid, check_valid_template. intros ->.
  by destruct (decide _).
Qed.

(** C6: with [validate_template] on, a prefix and suffix that together
    reference a variable outside the declared input variables and partial
    variable names, or leave one of those unused, make construction fail
    with a [ValueError], so no instance exists on which [format] could be
    called; and [format] itself never looks at the toggle, the check is made
    at construction only. *)
Theorem inconsistent_template_rejected_at_construction :
  forall values,
    validate_template values = true ->
    let text := prefix values +:+ suffix values in
    let declared :=
      input_variables values ++ (map_to_list (partial_variables values)).*1 in
    (exists x, x ∈ template_variables (template_format values) text
               /\ x ∉ declared)
    \/ (exists x, x ∈ declared
                  /\ x ∉ template_variables (template_format values) text) ->
    (exists msg, __init__ template_variables values = Raise (ValueError msg))
    /\ forall MAPPING kwargs (b : bool),
         format MAPPING (string_with_validate values b) kwargs
         = format MAPPING values kwargs.
Proof.
  intros values Hon text declared Hbad. split; [|reflexivity].
  unfold __init__.
  destruct (_FewShotPromptTemplateMixin.check_examples_and_selector _)
    as [m|err] eqn:Hcheck; simpl.
  - rewrite (template_is_valid_on _ Hon).
    fold text. fold declared.
    destruct (decide _) as [Heq|_]; [|eauto].
    exfalso. destruct Hbad as [(x & Hin & Hout)|(x & Hin & Hout)].
    + apply Hout. rewrite Heq in Hin. by apply elem_of_list_to_set in Hin.
    + apply Hout. rewrite Heq. by apply elem_of_list_to_set.
  - apply check_examples_and_selector_Raise in Hcheck as (msg & ->). eauto.
Qed.




End StringConfiguration.

(** C6 on the prefix ["Answer: {x}"] and suffix ["{y}"] with only [x]
    declared: [y] is referenced and not declared, construction fails. *)
Lemma inconsistent_template_rejected_at_construction_witness :
  let values :=
    {| FewShotPromptTemplate.mixin :=
         static_examples [ ({[ "q" := "1+1"; "a" := "2" ]}
                              : gmap string string) ];
       FewShotPromptTemplate.validate_template := true;
       FewShotPromptTemplate.input_variables := [ "x" ];
       FewShotPromptTemplate.example_prompt := qa_example;
       FewShotPromptTemplate.suffix := "{y}";
       FewShotPromptTemplate.example_separator := default_separator;
       FewShotPromptTemplate.prefix := "Answer: {x}";
       FewShotPromptTemplate.template_format := "f-string";
       FewShotPromptTemplate.partial_variables := ∅ |} in
  "y" ∈ FString.template_variables "f-string" "Answer: {x}{y}"
  /\ exists msg,
       FewShotPromptTemplate.__init__ FString.template_variables values
       = Raise (ValueError msg).
Proof.
  intros values.
  assert ("y" ∈ FString.template_variables "f-string" "Answer: {x}{y}") as Hy.
  { apply (bool_decide_unpack _). vm_compute. exact I. }
  split; [exact Hy|].
  apply (inconsistent_template_rejected_at_construction
           FString.template_variables values eq_refl).
  left. exists "y". split; [exact Hy|].
  apply (bool_decide_unpack _). vm_compute. exact I.
Defined.

(** * Further properties of the code *)

(** ** The pre-validator, case by case *)

Section ValidatorFacts.
Context {Value : Type}.
Import _FewShotPromptTemplateMixin.

Implicit Types (values : _FewShotPromptTemplateMixin.t Value).

(** X1: the pre-validator accepts the values, and returns them as they
    are, exactly when a list or a selector is given and it is not the case
    that a non-empty list comes with a selector that Python takes for
    true. *)
Theorem check_examples_and_selector_accepts_iff :
  forall values,
    (check_examples_and_selector values = Return values
     <-> (examples values <> None \/ example_selector values <> None)
         /\ ~ (exists e l s, examples values = Some (e :: l)
                             /\ example_selector values = Some s
                             /\ BaseExampleSelector.__bool__ s = true))
    /\ (forall values', check_examples_and_selector values = Return values'
                        -> values' = values).
Proof.
  intros values. split; [|apply check_examples_and_selector_Return].
  unfold check_examples_and_selector.
  destruct (examples values) as [[|e l]|] eqn:Hex,
           (example_selector values) as [s|] eqn:Hsel; simpl.
  - split; [|reflexivity]. intros _. split; [left; discriminate|].
    intros (? & ? & ? & ? & _). discriminate.
  - split; [|reflexivity]. intros _. split; [left; discriminate|].
    intros (? & ? & ? & ? & _). discriminate.
  - destruct (BaseExampleSelector.__bool__ s) eqn:Htrue; split.
    + discriminate.
    + intros [_ Hno]. exfalso. apply Hno. eauto 6.
    + intros _. split; [left; discriminate|].
      intros (? & ? & s' & _ & [= <-] & ?). congruence.
    + reflexivity.
  - split; [|reflexivity]. intros _. split; [left; discriminate|].
    intros (? & ? & ? & _ & ? & _). discriminate.
  - split; [|reflexivity]. intros _. split; [right; discriminate|].
    intros (? & ? & ? & ? & _). discriminate.
  - split; [discriminate|]. intros [[H|H] _]; congruence.
Qed.

(** X2: the pre-validator raises in two cases only, each with its own
    message: a non-empty list together with a selector that Python takes
    for true, and neither of the two. *)
Theorem check_examples_and_selector_raises_iff :
  forall values err,
    check_examples_and_selector values = Raise err
    <-> (err = ValueError
           "Only one of 'examples' and 'example_selector' should be provided"
         /\ exists e l s, examples values = Some (e :: l)
                          /\ example_selector values = Some s
                          /\ BaseExampleSelector.__bool__ s = true)
        \/ (err = ValueError
              "One of 'examples' and 'example_selector' should be provided"
            /\ examples values = None /\ example_selector values = None).
Proof.
  intros values err. unfold check_examples_and_selector.
  destruct (examples values) as [[|e l]|] eqn:Hex,
           (example_selector values) as [s|] eqn:Hsel; simpl.
  - split; [discriminate|].
    intros [(_ & ? & ? & ? & ? & _)|(_ & ? & _)]; discriminate.
  - split; [discriminate|].
    intros [(_ & ? & ? & ? & ? & _)|(_ & ? & _)]; discriminate.
  - destruct (BaseExampleSelector.__bool__ s) eqn:Htrue; split.
    + intros [= <-]. left. split; [reflexivity|]. eauto 6.
    + intros [(-> & _)|(_ & ? & _)]; [reflexivity|discriminate].
    + discriminate.
    + intros [(_ & ? & ? & s' & _ & [= <-] & ?)|(_ & ? & _)];
        [congruence|discriminate].
  - split; [discriminate|].
    intros [(_ & ? & ? & ? & _ & ? & _)|(_ & ? & _)]; discriminate.
  - split; [discriminate|].
    intros [(_ & ? & ? & ? & ? & _)|(_ & _ & ?)]; discriminate.
  - split.
    + intros [= <-]. right. auto.
    + intros [(_ & ? & ? & ? & ? & _)|(-> & _)]; [discriminate|reflexivity].
Qed.

(** X3: when accepted values hold both a list and a selector that Python
    takes for true, the list is empty, and every call of [_get_examples]
    returns that empty list: the selector is never asked. *)
Theorem accepted_list_with_selector_is_empty :
  forall values values' l (s : BaseExampleSelector.t Value),
    check_examples_and_selector values = Return values' ->
    examples values = Some l ->
    example_selector values = Some s ->
    BaseExampleSelector.__bool__ s = true ->
    l = [] /\ forall kwargs, _get_examples values' kwargs = Return [].
Proof.
  intros values values' l s Hcheck Hl Hs Htrue.
  pose proof (check_examples_and_selector_Return _ _ Hcheck) as ->.
  unfold check_examples_and_selector in Hcheck. unfold _get_examples.
  rewrite Hl, Hs in *. simpl in Hcheck. rewrite Htrue in Hcheck.
  destruct l as [|e l]; [|discriminate].
  split; reflexivity.
Qed.

End ValidatorFacts.

(** X3 on an empty list with a selector that would return an example. *)
Lemma accepted_list_with_selector_is_empty_witness :
  let s := constant_selector [ {[ "q" := "1+1"; "a" := "2" ]} ] in
  let values :=
    {| _FewShotPromptTemplateMixin.examples := Some [];
       _FewShotPromptTemplateMixin.example_selector := Some s |} in
  _FewShotPromptTemplateMixin.check_examples_and_selector values = Return values
  /\ forall kwargs,
       _FewShotPromptTemplateMixin._get_examples values kwargs = Return [].
Proof.
  intros s values. split; [reflexivity|].
  apply (accepted_list_with_selector_is_empty values values [] s);
    reflexivity.
Defined.

(** ** The projection, exactly *)

Section ProjectionExactly.
Context {Value : Type}.
Implicit Types (e m : gmap string Value) (vars : list string).

Lemma project_example_total vars e :
  Forall (fun k => is_Some (e !! k)) vars ->
  exists m, project_example vars e = Return m.
Proof.
  induction 1 as [|k ks [v Hv] _ (m & Hm)]; simpl.
  - eauto.
  - rewrite Hv, Hm. simpl. eauto.
Qed.

Lemma project_example_Return_keys vars e m :
  project_example vars e = Return m ->
  Forall (fun k => is_Some (e !! k)) vars.
Proof.
  intros Hm. apply Forall_forall. intros k Hin.
  destruct (e !! k) as [v|] eqn:Hk; [eauto|].
  destruct (project_example_missing _ _ _ Hin Hk) as (? & _ & _ & Hr).
  congruence.
Qed.

(** X4: the projection succeeds exactly when the record has every required
    key, and its result is then the record restricted to those keys. *)
Theorem project_example_Return_iff :
  forall vars e m,
    project_example vars e = Return m
    <-> Forall (fun k => is_Some (e !! k)) vars /\ m = only_keys vars e.
Proof.
  intros vars e m.
  assert (forall m', project_example vars e = Return m'
                     -> m' = only_keys vars e) as Hform.
  { intros m' Hm. apply map_eq. intros k.
    rewrite (project_example_lookup _ _ _ Hm k). unfold only_keys.
    rewrite map_lookup_filter.
    destruct (decide (k ∈ vars)) as [Hin|Hout].
    - destruct (e !! k); simpl; [|reflexivity]. by rewrite option_guard_True.
    - destruct (e !! k); simpl; [|reflexivity]. by rewrite option_guard_False. }
  split.
  - intros Hm. split; [|by apply Hform].
    apply Forall_forall. intros k Hin.
    destruct (e !! k) as [v|] eqn:Hk; [eauto|].
    destruct (project_example_missing _ _ _ Hin Hk) as (? & _ & _ & Hr).
    congruence.
  - intros [Hall ->]. destruct (project_example_total _ _ Hall) as (m & Hm).
    rewrite Hm. f_equal. by apply Hform.
Qed.

(** X5: the projection fails exactly on a record that lacks a required
    key, and the [KeyError] names the first key of [input_variables], in
    their order, that the record lacks. *)
Theorem project_example_Raise_iff :
  forall vars e err,
    project_example vars e = Raise err
    <-> exists pre k post,
          vars = pre ++ k :: post
          /\ Forall (fun k' => is_Some (e !! k')) pre
          /\ e !! k = None
          /\ err = KeyError k.
Proof.
  intros vars e err. split.
  - revert err. induction vars as [|k0 ks IH]; intros err; simpl;
      [discriminate|].
    destruct (e !! k0) as [v|] eqn:Hk0.
    + destruct (project_example ks e) as [m|err'] eqn:Hks; simpl;
        [discriminate|].
      intros [= <-]. destruct (IH err' eq_refl) as (pre & k & post & -> & Hpre & Hk & ->).
      exists (k0 :: pre), k, post. split; [reflexivity|].
      split; [constructor; eauto|]. split; [assumption|reflexivity].
    + intros [= <-]. exists [], k0, ks. split; [reflexivity|].
      split; [constructor|]. split; [assumption|reflexivity].
  - intros (pre & k & post & -> & Hpre & Hk & ->).
    induction Hpre as [|k' pre [v Hv] _ IH]; simpl.
    + by rewrite Hk.
    + rewrite Hv, IH. reflexivity.
Qed.

End ProjectionExactly.

(** ** The string composer, stage by stage *)

Section StringComposerStages.
Context {Value : Type}.
Import FewShotPromptTemplate.

Variable MAPPING : gmap string (string -> gmap string Value -> Result string).

Implicit Types (self : FewShotPromptTemplate.t Value).
Implicit Types (kwargs : gmap string Value).
Implicit Types (l E : list (gmap string Value)) (rs : list string).

Lemma comprehension_project_total (vars : list string) l :
  Forall (fun x : gmap string Value =>
            Forall (fun k => is_Some (x !! k)) vars) l ->
  exists P, comprehension (project_example vars) l = Return P.
Proof.
  induction 1 as [|x l Hx _ (P & HP)]; simpl; [eauto|].
  destruct (project_example_total _ _ Hx) as (m & ->). simpl.
  rewrite HP. simpl. eauto.
Qed.

(** X6: a selector that raises on the inputs it is handed makes [format]
    raise the same exception; nothing else is looked at, not even whether
    the template format is known. The selector is handed the inputs merged
    with the partial variables. *)
Theorem format_propagates_selector_failure :
  forall self (s : BaseExampleSelector.t Value) kwargs err,
    _FewShotPromptTemplateMixin.examples (mixin self) = None ->
    _FewShotPromptTemplateMixin.example_selector (mixin self) = Some s ->
    BaseExampleSelector.select_examples s
      (_merge_partial_and_user_variables (partial_variables self) kwargs)
    = Raise err ->
    format MAPPING self kwargs = Raise err.
Proof.
  intros self s kwargs err Hnone Hs Herr.
  unfold format, _FewShotPromptTemplateMixin._get_examples.
  rewrite Hnone, Hs, Herr. reflexivity.
Qed.

(** X7: with a selector as the source, [format] gives what it gives for
    the same composer configured with the list the selector returns on the
    merged inputs. *)
Theorem format_selected_as_static :
  forall self (s : BaseExampleSelector.t Value) kwargs l,
    _FewShotPromptTemplateMixin.examples (mixin self) = None ->
    _FewShotPromptTemplateMixin.example_selector (mixin self) = Some s ->
    BaseExampleSelector.select_examples s
      (_merge_partial_and_user_variables (partial_variables self) kwargs)
    = Return l ->
    format MAPPING self kwargs
    = format MAPPING (string_with_mixin self (static_examples l)) kwargs.
Proof.
  intros self s kwargs l Hnone Hs Hl.
  unfold format, _FewShotPromptTemplateMixin._get_examples.
  rewrite Hnone, Hs, Hl. reflexivity.
Qed.

(** X8: all the examples are projected before any of them is rendered.
    Take a list in which the records before [e] render and [e] is projected
    but its rendering raises. When the records after [e] have every
    required key, [format] raises the exception of that rendering; when one
    of them lacks a key, [format] raises the [KeyError] of the missing key
    instead, although that record comes later. *)
Theorem format_raises_first_rendering_failure :
  forall self kwargs l1 e l2 rs1 p err,
    _FewShotPromptTemplateMixin._get_examples (mixin self)
      (_merge_partial_and_user_variables (partial_variables self) kwargs)
    = Return (l1 ++ e :: l2) ->
    Forall2 (fun x r => rendered (example_prompt self) x = Return r) l1 rs1 ->
    project_example (PromptTemplate.input_variables (example_prompt self)) e
    = Return p ->
    PromptTemplate.format (example_prompt self) p = Raise err ->
    (Forall (fun x : gmap string Value =>
               Forall (fun k => is_Some (x !! k))
                 (PromptTemplate.input_variables (example_prompt self))) l2 ->
     format MAPPING self kwargs = Raise err)
    /\ (Exists (lacks_key
                  (PromptTemplate.input_variables (example_prompt self))) l2 ->
        exists (x : gmap string Value) (k : string),
          x ∈ l2
          /\ k ∈ PromptTemplate.input_variables (example_prompt self)
          /\ x !! k = None
          /\ format MAPPING self kwargs = Raise (KeyError k)).
Proof.
  intros self kwargs l1 e l2 rs1 p err HE H1 Hp Herr.
  apply comprehension_compose in H1 as (P1 & HP1 & HR1).
  apply comprehension_Return in HR1.
  split.
  - intros H2. rewrite format_steps, HE. simpl.
    destruct (comprehension_project_total _ _ H2) as (P2 & HP2).
    rewrite comprehension_app, HP1. simpl. rewrite Hp. simpl.
    rewrite HP2. simpl.
    rewrite comprehension_app, HR1. simpl. rewrite Herr. reflexivity.
  - intros H2.
    destruct (comprehension_project_missing _ _ H2)
      as (x & k & Hx & Hk & Hnone & Hraise).
    exists x, k. split; [assumption|]. split; [assumption|].
    split; [assumption|].
    rewrite format_steps, HE. simpl.
    rewrite comprehension_app, HP1. simpl. rewrite Hp. simpl.
    rewrite Hraise. reflexivity.
Qed.

(** X9: the engine is looked up last. With a template format that has no
    engine in the table, [format] raises the [KeyError] of the format name
    when the examples are fetched and rendered; when the selector, a
    projection or a rendering raises, [format] raises that exception and
    not the [KeyError] of the format name. *)
Theorem format_unknown_template_format :
  forall self kwargs,
    MAPPING !! template_format self = None ->
    (forall E rs,
       _FewShotPromptTemplateMixin._get_examples (mixin self)
         (_merge_partial_and_user_variables (partial_variables self) kwargs)
       = Return E ->
       Forall2 (fun e r => rendered (example_prompt self) e = Return r) E rs ->
       format MAPPING self kwargs = Raise (KeyError (template_format self)))
    /\ (forall err,
          _FewShotPromptTemplateMixin._get_examples (mixin self)
            (_merge_partial_and_user_variables (partial_variables self) kwargs)
          = Raise err ->
          format MAPPING self kwargs = Raise err)
    /\ (forall E err,
          _FewShotPromptTemplateMixin._get_examples (mixin self)
            (_merge_partial_and_user_variables (partial_variables self) kwargs)
          = Return E ->
          (P ← comprehension
                 (project_example
                    (PromptTemplate.input_variables (example_prompt self))) E;
           comprehension (PromptTemplate.format (example_prompt self)) P)
          = Raise err ->
          format MAPPING self kwargs = Raise err).
Proof.
  intros self kwargs Hnone. split; [|split].
  - intros E rs HE HF.
    rewrite (format_rendered _ _ _ _ _ HE HF). by rewrite Hnone.
  - intros err HE. rewrite format_steps, HE. reflexivity.
  - intros E err HE Hpipe. rewrite format_steps, HE. simpl.
    rewrite Hpipe. reflexivity.
Qed.

End StringComposerStages.

(** ** The assembled text at the edges *)

Section AssembleEdges.
Context {Value : Type}.
Import FewShotPromptTemplate.

Variable MAPPING : gmap string (string -> gmap string Value -> Result string).

Implicit Types (self : FewShotPromptTemplate.t Value).
Implicit Types (rs : list string).

Lemma retained_nil_iff (pieces : list string) :
  retained pieces = [] <-> Forall (fun p => p = EmptyString) pieces.
Proof.
  induction pieces as [|p ps IH]; simpl.
  - split; [constructor|reflexivity].
  - destruct p as [|c p].
    + rewrite IH. split; [by constructor|]. by inversion 1.
    + split; [discriminate|]. inversion 1. discriminate.
Qed.

Lemma separated_empty_iff (sep : string) (pieces : list string) :
  Forall (fun p => p <> EmptyString) pieces ->
  separated sep pieces = EmptyString <-> pieces = [].
Proof.
  intros Hne. destruct pieces as [|p ps]; [done|].
  split; [|discriminate]. inversion Hne as [|? ? Hp _]; subst.
  destruct p as [|c p]; [congruence|]. unfold separated.
  rewrite append_cons. discriminate.
Qed.

(** X10: the assembled text is empty exactly when the prefix, the suffix
    and every rendered example are empty; a separator alone never shows. *)
Theorem assemble_empty_iff :
  forall self rs,
    assemble self rs = EmptyString
    <-> prefix self = EmptyString /\ suffix self = EmptyString
        /\ Forall (fun r => r = EmptyString) rs.
Proof.
  intros self rs. rewrite assemble_separated.
  rewrite (separated_empty_iff _ _ (retained_nonempty _)), retained_nil_iff.
  rewrite Forall_cons, Forall_app, Forall_singleton. tauto.
Qed.

Lemma separated_no_separator (pieces : list string) :
  separated EmptyString pieces = foldr String.append EmptyString pieces.
Proof.
  destruct pieces as [|p ps]; [reflexivity|]. unfold separated. simpl.
  f_equal.
Qed.

Lemma join_retained (pieces : list string) :
  foldr String.append EmptyString (retained pieces)
  = foldr String.append EmptyString pieces.
Proof.
  induction pieces as [|p ps IH]; [reflexivity|].
  destruct p; simpl; by rewrite IH.
Qed.

(** X11: with the empty string as separator the assembled text is the
    prefix, the rendered examples and the suffix written one after the
    other. *)
Theorem assemble_without_separator :
  forall self rs,
    example_separator self = EmptyString ->
    assemble self rs
    = foldr String.append EmptyString (prefix self :: rs ++ [suffix self]).
Proof.
  intros self rs Hsep. rewrite assemble_separated, Hsep.
  by rewrite separated_no_separator, join_retained.
Qed.

(** X12: with no example at all, the engine is handed the suffix when the
    prefix is empty, the prefix when the suffix is empty, and otherwise the
    prefix, one separator and the suffix. *)
Theorem format_without_examples :
  forall self (kwargs : gmap string Value) formatter,
    _FewShotPromptTemplateMixin._get_examples (mixin self)
      (_merge_partial_and_user_variables (partial_variables self) kwargs)
    = Return [] ->
    MAPPING !! template_format self = Some formatter ->
    format MAPPING self kwargs
    = formatter
        (if decide (prefix self = EmptyString) then suffix self
         else if decide (suffix self = EmptyString) then prefix self
         else prefix self +:+ example_separator self +:+ suffix self)
        (_merge_partial_and_user_variables (partial_variables self) kwargs).
Proof.
  intros self kwargs formatter HE Hfmt.
  rewrite (format_rendered _ _ _ [] [] HE ltac:(constructor)). rewrite Hfmt.
  f_equal. rewrite assemble_separated.
  destruct (prefix self) as [|c p], (suffix self) as [|c' q];
    repeat (destruct (decide _) as [?|?]; try discriminate; try congruence);
    simpl; try reflexivity.
  all: by rewrite append_empty_r.
Qed.

End AssembleEdges.

(** ** The message composer, stage by stage *)

Section MessageComposerStages.
Context {Value : Type}.
Import FewShotChatMessagePromptTemplate.

Implicit Types (self : FewShotChatMessagePromptTemplate.t Value).
Implicit Types (kwargs : gmap string Value).
Implicit Types (l E : list (gmap string Value)).

Lemma nested_comprehension_app {A B : Type} (f : A -> Result (list B))
  (l1 l2 : list A) :
  nested_comprehension f (l1 ++ l2) =
  ys1 ← nested_comprehension f l1;
  ys2 ← nested_comprehension f l2;
  Return (ys1 ++ ys2).
Proof.
  induction l1 as [|x l1 IH]; simpl.
  - destruct (nested_comprehension f l2); reflexivity.
  - destruct (f x) as [ys|e]; simpl; [|reflexivity].
    rewrite IH. destruct (nested_comprehension f l1); simpl; [|reflexivity].
    destruct (nested_comprehension f l2); simpl; [|reflexivity].
    by rewrite app_assoc.
Qed.

Lemma expand_literals kwargs (ms : list BaseMessage) :
  nested_comprehension (expand kwargs) (Literal <$> ms) = Return ms.
Proof.
  induction ms as [|m ms IH]; [reflexivity|].
  rewrite fmap_cons. simpl. rewrite IH. reflexivity.
Qed.

(** X13: with a selector as the source, [format_messages] hands it the
    inputs as they are, raises what it raises, and otherwise gives what the
    same composer gives when configured with the returned list. *)
Theorem format_messages_selected_as_static :
  forall self (s : BaseExampleSelector.t Value) kwargs,
    _FewShotPromptTemplateMixin.examples (mixin self) = None ->
    _FewShotPromptTemplateMixin.example_selector (mixin self) = Some s ->
    format_messages self kwargs
    = l ← BaseExampleSelector.select_examples s kwargs;
      format_messages (chat_with_mixin self (static_examples l)) kwargs.
Proof.
  intros self s kwargs Hnone Hs.
  unfold format_messages, _FewShotPromptTemplateMixin._get_examples.
  rewrite Hnone, Hs. simpl.
  destruct (BaseExampleSelector.select_examples s kwargs); reflexivity.
Qed.

(** A template of the prefix that raises, the entries before it expanding,
    when the examples are fetched and projected. *)
Lemma format_messages_prefix_failure self kwargs E pre tpl post pms err :
  _FewShotPromptTemplateMixin._get_examples (mixin self) kwargs = Return E ->
  Forall (fun x : gmap string Value =>
            Forall (fun k => is_Some (x !! k))
              (MessageTemplate.input_variables (example_prompt self))) E ->
  prefix self = pre ++ Template tpl :: post ->
  Forall2 (expands kwargs) pre pms ->
  MessageTemplate.format_messages tpl kwargs = Raise err ->
  format_messages self kwargs = Raise err.
Proof.
  intros HE Hkeys Hpre Hpms Herr.
  unfold format_messages. rewrite HE. simpl.
  destruct (comprehension_project_total _ _ Hkeys) as (P & ->). simpl.
  rewrite Hpre, nested_comprehension_app, (expand_all _ _ _ Hpms). simpl.
  rewrite Herr. reflexivity.
Qed.

(** X14: the prefix is expanded after the examples are fetched and
    projected and before any example is expanded. Take a prefix in which
    the entries before a template expand and that template raises. When
    fetching the examples raises, [format_messages] raises that exception;
    when a record lacks a required key, it raises the [KeyError] of the
    missing key; and when every record has the required keys, it raises the
    exception of the template, whatever the examples and the suffix would
    give. *)
Theorem format_messages_raises_prefix_failure :
  forall self kwargs pre tpl post pms err,
    prefix self = pre ++ Template tpl :: post ->
    Forall2 (expands kwargs) pre pms ->
    MessageTemplate.format_messages tpl kwargs = Raise err ->
    (forall err',
       _FewShotPromptTemplateMixin._get_examples (mixin self) kwargs
       = Raise err' ->
       format_messages self kwargs = Raise err')
    /\ (forall E,
          _FewShotPromptTemplateMixin._get_examples (mixin self) kwargs
          = Return E ->
          Exists (lacks_key
                    (MessageTemplate.input_variables (example_prompt self))) E ->
          exists (x : gmap string Value) (k : string),
            x ∈ E
            /\ k ∈ MessageTemplate.input_variables (example_prompt self)
            /\ x !! k = None
            /\ format_messages self kwargs = Raise (KeyError k))
    /\ (forall E,
          _FewShotPromptTemplateMixin._get_examples (mixin self) kwargs
          = Return E ->
          Forall (fun x : gmap string Value =>
                    Forall (fun k => is_Some (x !! k))
                      (MessageTemplate.input_variables (example_prompt self)))
            E ->
          format_messages self kwargs = Raise err).
Proof.
  intros self kwargs pre tpl post pms err Hpre Hpms Herr.
  split; [|split].
  - intros err' HE. unfold format_messages. rewrite HE. reflexivity.
  - intros E HE Hex.
    destruct (comprehension_project_missing _ _ Hex)
      as (x & k & Hx & Hk & Hnone & Hraise).
    exists x, k. split; [assumption|]. split; [assumption|].
    split; [assumption|].
    unfold format_messages. rewrite HE. simpl. rewrite Hraise. reflexivity.
  - intros E HE Hkeys. by eapply format_messages_prefix_failure.
Qed.

(** X19: the examples are expanded in order, after the prefix and before
    the suffix. Take a list in which every record has the required keys,
    the records before [e] expand and the expansion of [e] raises. When the
    prefix expands, [format_messages] raises the exception of that
    expansion, whatever the later records and the suffix would give; when a
    template of the prefix raises, it raises the exception of that template
    instead. *)
Theorem format_messages_raises_first_expansion_failure :
  forall self kwargs l1 e l2 mss1 p err,
    _FewShotPromptTemplateMixin._get_examples (mixin self) kwargs
    = Return (l1 ++ e :: l2) ->
    Forall2 (fun x ms => expanded (example_prompt self) x = Return ms)
      l1 mss1 ->
    project_example (MessageTemplate.input_variables (example_prompt self)) e
    = Return p ->
    MessageTemplate.format_messages (example_prompt self) p = Raise err ->
    Forall (fun x : gmap string Value =>
              Forall (fun k => is_Some (x !! k))
                (MessageTemplate.input_variables (example_prompt self))) l2 ->
    (forall pms,
       Forall2 (expands kwargs) (prefix self) pms ->
       format_messages self kwargs = Raise err)
    /\ (forall pre tpl post pms err',
          prefix self = pre ++ Template tpl :: post ->
          Forall2 (expands kwargs) pre pms ->
          MessageTemplate.format_messages tpl kwargs = Raise err' ->
          format_messages self kwargs = Raise err').
Proof.
  intros self kwargs l1 e l2 mss1 p err HE H1 Hp Herr H2.
  destruct (expand_examples _ _ _ H1) as (P1 & HP1 & HM1).
  destruct (comprehension_project_total _ _ H2) as (P2 & HP2).
  split.
  - intros pms Hpre. unfold format_messages. rewrite HE. simpl.
    rewrite comprehension_app, HP1. simpl. rewrite Hp. simpl.
    rewrite HP2. simpl.
    rewrite (expand_all _ _ _ Hpre). simpl.
    rewrite nested_comprehension_app, HM1. simpl. rewrite Herr. reflexivity.
  - intros pre tpl post pms err' Hpre Hpms Herr'.
    eapply format_messages_prefix_failure; try eassumption.
    apply Forall_app. split.
    + apply comprehension_Return in HP1.
      clear -HP1. induction HP1 as [|x m l P Hx _ IH]; constructor; [|exact IH].
      by apply project_example_Return_keys in Hx.
    + constructor; [|assumption].
      by apply project_example_Return_keys in Hp.
Qed.

(** With literal entries only and a configured list, the stages that are
    left. *)
Lemma format_messages_literals (ep : MessageTemplate.t Value) l
  (pre suf : list BaseMessage) kwargs :
  format_messages
    {| mixin := static_examples l;
       prefix := Literal <$> pre;
       example_prompt := ep;
       suffix := Literal <$> suf |} kwargs
  = P ← comprehension
          (project_example (MessageTemplate.input_variables ep)) l;
    ms ← nested_comprehension (MessageTemplate.format_messages ep) P;
    Return (pre ++ ms ++ suf).
Proof.
  unfold format_messages. simpl.
  destruct (comprehension _ l) as [P|]; simpl; [|reflexivity].
  rewrite (expand_literals kwargs pre), (expand_literals kwargs suf). simpl.
  destruct (nested_comprehension _ P) as [ms|]; reflexivity.
Qed.

(** X15: when the prefix and the suffix hold literal messages only and the
    examples are a configured list, the inputs play no part: the result is
    the same for all inputs, and when the examples expand it is the prefix
    messages, the expansions in order and the suffix messages. *)
Theorem format_messages_of_literals :
  forall (ep : MessageTemplate.t Value) l (pre suf : list BaseMessage),
    let self :=
      {| mixin := static_examples l;
         prefix := Literal <$> pre;
         example_prompt := ep;
         suffix := Literal <$> suf |} in
    (forall kwargs kwargs',
       format_messages self kwargs = format_messages self kwargs')
    /\ (forall kwargs mss,
          Forall2 (fun e ms => expanded ep e = Return ms) l mss ->
          format_messages self kwargs = Return (pre ++ concat mss ++ suf)).
Proof.
  intros ep l pre suf self. split.
  - intros kwargs kwargs'. subst self. by rewrite !format_messages_literals.
  - intros kwargs mss Hmss. subst self. rewrite format_messages_literals.
    destruct (expand_examples _ _ _ Hmss) as (P & -> & HP). simpl.
    rewrite HP. reflexivity.
Qed.

Variable get_buffer_string : list BaseMessage -> Result string.

(** X16: with literal messages only and no example, [format] is the
    transcript of the prefix messages followed by the suffix messages, for
    all inputs and whatever the example template is. *)
Theorem format_of_literals_without_examples :
  forall (ep : MessageTemplate.t Value) (pre suf : list BaseMessage) kwargs,
    format get_buffer_string
      {| mixin := static_examples [];
         prefix := Literal <$> pre;
         example_prompt := ep;
         suffix := Literal <$> suf |} kwargs
    = get_buffer_string (pre ++ suf).
Proof.
  intros ep pre suf kwargs. unfold format.
  rewrite format_messages_literals. reflexivity.
Qed.

End MessageComposerStages.

(** ** Construction and the dump *)

Section DumpFacts.
Context {Value : Type} {DictArgs Serialized : Type}.
Import FewShotPromptTemplate.

Variable super_dict :
  FewShotPromptTemplate.t Value -> DictArgs -> Result Serialized.

(** X17: a composer whose example source passed the pre-validator and
    holds no selector holds a list; every call of [_get_examples] returns
    that list, and the dump is the inherited one. *)
Theorem accepted_without_selector_is_static :
  forall (self : FewShotPromptTemplate.t Value) m (args : DictArgs),
    _FewShotPromptTemplateMixin.check_examples_and_selector (mixin self)
    = Return m ->
    _FewShotPromptTemplateMixin.example_selector (mixin self) = None ->
    exists l,
      _FewShotPromptTemplateMixin.examples (mixin self) = Some l
      /\ (forall kwargs,
            _FewShotPromptTemplateMixin._get_examples (mixin self) kwargs
            = Return l)
      /\ dict super_dict self args = super_dict self args.
Proof.
  intros self m args Hcheck Hnone.
  unfold _FewShotPromptTemplateMixin.check_examples_and_selector in Hcheck.
  unfold dict, _FewShotPromptTemplateMixin._get_examples.
  rewrite Hnone in *.
  destruct (_FewShotPromptTemplateMixin.examples (mixin self)) as [l|];
    [|simpl in Hcheck; discriminate].
  exists l. repeat split.
Qed.

End DumpFacts.

(** ** The further properties at work *)

(** X6 on a selector whose backend is out of reach. *)
Lemma format_propagates_selector_failure_witness :
  FewShotPromptTemplate.format FString.DEFAULT_FORMATTER_MAPPING
    (string_with_mixin (qa_prompt qa_example [])
       (selected_examples failing_selector))
    {[ "input" := "4+4" ]}
  = Raise (OtherError "selector backend unreachable").
Proof.
  apply (format_propagates_selector_failure FString.DEFAULT_FORMATTER_MAPPING
           (string_with_mixin (qa_prompt qa_example [])
              (selected_examples failing_selector))
           failing_selector); reflexivity.
Defined.

(** X7 on a selector that always returns one example. *)
Lemma format_selected_as_static_witness :
  let l := [ ({[ "q" := "1+1"; "a" := "2" ]} : gmap string string) ] in
  FewShotPromptTemplate.format FString.DEFAULT_FORMATTER_MAPPING
    (string_with_mixin (qa_prompt qa_example [])
       (selected_examples (constant_selector l)))
    {[ "input" := "4+4" ]}
  = FewShotPromptTemplate.format FString.DEFAULT_FORMATTER_MAPPING
      (qa_prompt qa_example l) {[ "input" := "4+4" ]}.
Proof.
  intros l.
  apply (format_selected_as_static FString.DEFAULT_FORMATTER_MAPPING
           (string_with_mixin (qa_prompt qa_example [])
              (selected_examples (constant_selector l)))
           (constant_selector l)); reflexivity.
Defined.

(** X8 on an example template that uses a variable it does not declare,
    so that the rendering of the first record raises, and a second record
    that lacks a key: the key error of the second record comes out. *)
Lemma format_raises_first_rendering_failure_witness :
  let ep := FString.prompt [ "q" ] "{q} = {a}" in
  let e1 := ({[ "q" := "1+1"; "a" := "2" ]} : gmap string string) in
  let e2 := ({[ "a" := "4" ]} : gmap string string) in
  PromptTemplate.format ep {[ "q" := "1+1" ]} = Raise (KeyError "a")
  /\ FewShotPromptTemplate.format FString.DEFAULT_FORMATTER_MAPPING
       (qa_prompt ep [ e1; e2 ]) {[ "input" := "4+4" ]}
     = Raise (KeyError "q").
Proof.
  intros ep e1 e2. split; [vm_compute; reflexivity|].
  destruct (format_raises_first_rendering_failure
              FString.DEFAULT_FORMATTER_MAPPING
              (qa_prompt ep [ e1; e2 ]) {[ "input" := "4+4" ]}
              [] e1 [ e2 ] [] {[ "q" := "1+1" ]} (KeyError "a"))
    as (_ & Hlater).
  - reflexivity.
  - constructor.
  - vm_compute. reflexivity.
  - vm_compute. reflexivity.
  - destruct Hlater as (x & k & _ & _ & _ & Hf).
    { apply Exists_cons_hd. exists "q". split; [left|].
      vm_compute. reflexivity. }
    rewrite Hf. revert Hf. vm_compute. intros [= <-]. reflexivity.
Defined.

(** X9 on a template format that has no engine in the table: its key error
    with a list of examples, the error of the selector with a selector
    whose backend is out of reach. *)
Lemma format_unknown_template_format_witness :
  let l := [ ({[ "q" := "1+1"; "a" := "2" ]} : gmap string string) ] in
  let self := qa_prompt_with default_separator "mustache" qa_example l in
  FewShotPromptTemplate.format FString.DEFAULT_FORMATTER_MAPPING self
    {[ "input" := "4+4" ]}
  = Raise (KeyError "mustache")
  /\ FewShotPromptTemplate.format FString.DEFAULT_FORMATTER_MAPPING
       (string_with_mixin self (selected_examples failing_selector))
       {[ "input" := "4+4" ]}
     = Raise (OtherError "selector backend unreachable").
Proof.
  intros l self. split.
  - destruct (format_unknown_template_format FString.DEFAULT_FORMATTER_MAPPING
                self {[ "input" := "4+4" ]}) as (Hend & _).
    + vm_compute. reflexivity.
    + apply (Hend l [ "Q: 1+1 A: 2" ]); [reflexivity|].
      constructor; [vm_compute; reflexivity|constructor].
  - destruct (format_unknown_template_format FString.DEFAULT_FORMATTER_MAPPING
                (string_with_mixin self (selected_examples failing_selector))
                {[ "input" := "4+4" ]}) as (_ & Hsel & _).
    + vm_compute. reflexivity.
    + apply Hsel. reflexivity.
Defined.

(** X11 on two rendered examples and the empty separator. *)
Lemma assemble_without_separator_witness :
  FewShotPromptTemplate.assemble
    (qa_prompt_with "" "f-string" qa_example []) [ "Q: 1+1 A: 2"; "Q: 2+2 A: 4" ]
  = "Answer the question.Q: 1+1 A: 2Q: 2+2 A: 4Q: {input}".
Proof.
  rewrite (assemble_without_separator
             (qa_prompt_with "" "f-string" qa_example [])
             [ "Q: 1+1 A: 2"; "Q: 2+2 A: 4" ] eq_refl).
  vm_compute. reflexivity.
Defined.

(** X12 on the composer with an empty list of examples. *)
Lemma format_without_examples_witness :
  FewShotPromptTemplate.format FString.DEFAULT_FORMATTER_MAPPING
    (qa_prompt qa_example []) {[ "input" := "4+4" ]}
  = Return ("Answer the question." +:+ default_separator +:+ "Q: 4+4").
Proof.
  rewrite (format_without_examples FString.DEFAULT_FORMATTER_MAPPING
             (qa_prompt qa_example []) {[ "input" := "4+4" ]}
             FString.formatter eq_refl eq_refl).
  vm_compute. reflexivity.
Defined.

(** X13 on a selector that always returns one example. *)
Lemma format_messages_selected_as_static_witness :
  let l := [ ({[ "q" := "1+1"; "a" := "2" ]} : gmap string string) ] in
  let kwargs := ({[ "input" := "4+4"; "name" := "Ada" ]} : gmap string string) in
  FewShotChatMessagePromptTemplate.format_messages
    (qa_chat (selected_examples (constant_selector l))) kwargs
  = Return [ SystemMessage "You are a helpful AI Assistant";
             SystemMessage "You talk to Ada";
             HumanMessage "1+1"; AIMessage "2"; HumanMessage "4+4" ].
Proof.
  intros l kwargs.
  rewrite (format_messages_selected_as_static
             (qa_chat (selected_examples (constant_selector l)))
             (constant_selector l) kwargs eq_refl eq_refl).
  vm_compute. reflexivity.
Defined.

(** X14 on inputs that lack the name the second prefix entry asks for:
    the key error of the name with a complete record, the key error of the
    record with a record that lacks a key. *)
Lemma format_messages_raises_prefix_failure_witness :
  let full := ({[ "q" := "1+1"; "a" := "2" ]} : gmap string string) in
  let short := ({[ "q" := "2+2" ]} : gmap string string) in
  FewShotChatMessagePromptTemplate.format_messages
    (qa_chat (static_examples [ full ])) {[ "input" := "4+4" ]}
  = Raise (KeyError "name")
  /\ FewShotChatMessagePromptTemplate.format_messages
       (qa_chat (static_examples [ short ])) {[ "input" := "4+4" ]}
     = Raise (KeyError "a").
Proof.
  intros full short. split.
  - destruct (format_messages_raises_prefix_failure
                (qa_chat (static_examples [ full ])) {[ "input" := "4+4" ]}
                [ FewShotChatMessagePromptTemplate.Literal
                    (SystemMessage "You are a helpful AI Assistant") ]
                (FString.message_prompt SystemMessage [ "name" ]
                   "You talk to {name}")
                []
                [ [ SystemMessage "You are a helpful AI Assistant" ] ]
                (KeyError "name")) as (_ & _ & Hprefix).
    + reflexivity.
    + repeat constructor.
    + vm_compute. reflexivity.
    + apply (Hprefix [ full ]); [reflexivity|].
      repeat constructor; vm_compute; eauto.
  - destruct (format_messages_raises_prefix_failure
                (qa_chat (static_examples [ short ])) {[ "input" := "4+4" ]}
                [ FewShotChatMessagePromptTemplate.Literal
                    (SystemMessage "You are a helpful AI Assistant") ]
                (FString.message_prompt SystemMessage [ "name" ]
                   "You talk to {name}")
                []
                [ [ SystemMessage "You are a helpful AI Assistant" ] ]
                (KeyError "name")) as (_ & Hkey & _).
    + reflexivity.
    + repeat constructor.
    + vm_compute. reflexivity.
    + destruct (Hkey [ short ] eq_refl) as (x & k & _ & _ & _ & Hf).
      { apply Exists_cons_hd. exists "a". split; [right; left|].
        vm_compute. reflexivity. }
      rewrite Hf. revert Hf. vm_compute. intros [= <-]. reflexivity.
Defined.

(** X19 on an example template that uses a variable it does not declare,
    with a suffix that would fail as well: the error of the expansion
    behind a literal prefix, the error of the prefix template when that
    fails. *)
Lemma format_messages_raises_first_expansion_failure_witness :
  let e1 := ({[ "q" := "1+1"; "a" := "2" ]} : gmap string string) in
  let ep :=
    FString.chat_prompt [ "q" ]
      [ FString.message_prompt HumanMessage [ "q" ] "{q}";
        FString.message_prompt AIMessage [ "a" ] "{a}" ] in
  let greeting :=
    FString.message_prompt SystemMessage [ "name" ] "You talk to {name}" in
  let ask := FString.message_prompt HumanMessage [ "input" ] "{input}" in
  let M0 := SystemMessage "You are a helpful AI Assistant" in
  let plain :=
    {| FewShotChatMessagePromptTemplate.mixin := static_examples [ e1 ];
       FewShotChatMessagePromptTemplate.prefix :=
         [ FewShotChatMessagePromptTemplate.Literal M0 ];
       FewShotChatMessagePromptTemplate.example_prompt := ep;
       FewShotChatMessagePromptTemplate.suffix :=
         [ FewShotChatMessagePromptTemplate.Template ask ] |} in
  let greeted :=
    {| FewShotChatMessagePromptTemplate.mixin := static_examples [ e1 ];
       FewShotChatMessagePromptTemplate.prefix :=
         [ FewShotChatMessagePromptTemplate.Literal M0;
           FewShotChatMessagePromptTemplate.Template greeting ];
       FewShotChatMessagePromptTemplate.example_prompt := ep;
       FewShotChatMessagePromptTemplate.suffix :=
         [ FewShotChatMessagePromptTemplate.Template ask ] |} in
  FewShotChatMessagePromptTemplate.format_messages plain ∅
  = Raise (KeyError "a")
  /\ FewShotChatMessagePromptTemplate.format_messages greeted ∅
     = Raise (KeyError "name").
Proof.
  intros e1 ep greeting ask M0 plain greeted. split.
  - destruct (format_messages_raises_first_expansion_failure plain ∅
                [] e1 [] [] {[ "q" := "1+1" ]} (KeyError "a"))
      as (Hexp & _).
    + reflexivity.
    + constructor.
    + vm_compute. reflexivity.
    + vm_compute. reflexivity.
    + constructor.
    + apply (Hexp [ [ M0 ] ]). repeat constructor.
  - destruct (format_messages_raises_first_expansion_failure greeted ∅
                [] e1 [] [] {[ "q" := "1+1" ]} (KeyError "a"))
      as (_ & Hprefix).
    + reflexivity.
    + constructor.
    + vm_compute. reflexivity.
    + vm_compute. reflexivity.
    + constructor.
    + apply (Hprefix [ FewShotChatMessagePromptTemplate.Literal M0 ]
               greeting [] [ [ M0 ] ] (KeyError "name")).
      * reflexivity.
      * repeat constructor.
      * vm_compute. reflexivity.
Defined.

(** X17 on the composer with a list of examples and a dump that always
    succeeds. *)
Lemma accepted_without_selector_is_static_witness :
  let l := [ ({[ "q" := "1+1"; "a" := "2" ]} : gmap string string) ] in
  let super_dict :=
    fun (_ : FewShotPromptTemplate.t string) (_ : unit) =>
      Return "few_shot" in
  FewShotPromptTemplate.dict super_dict (qa_prompt qa_example l) tt
  = Return "few_shot".
Proof.
  intros l super_dict.
  destruct (accepted_without_selector_is_static super_dict
              (qa_prompt qa_example l) (static_examples l) tt
              eq_refl eq_refl) as (l' & _ & _ & ->).
  reflexivity.
Defined.

(** X15 on two literal messages around one example. *)
Lemma format_messages_of_literals_witness :
  let ep :=
    FString.chat_prompt [ "q"; "a" ]
      [ FString.message_prompt HumanMessage [ "q" ] "{q}";
        FString.message_prompt AIMessage [ "a" ] "{a}" ] in
  let self :=
    {| FewShotChatMessagePromptTemplate.mixin :=
         static_examples [ {[ "q" := "1+1"; "a" := "2" ]} ];
       FewShotChatMessagePromptTemplate.prefix :=
         FewShotChatMessagePromptTemplate.Literal
           <$> [ SystemMessage "You are a helpful AI Assistant" ];
       FewShotChatMessagePromptTemplate.example_prompt := ep;
       FewShotChatMessagePromptTemplate.suffix :=
         FewShotChatMessagePromptTemplate.Literal
           <$> [ HumanMessage "What is 4+4?" ] |} in
  FewShotChatMessagePromptTemplate.format_messages self
    {[ "input" := "ignored" ]}
  = Return [ SystemMessage "You are a helpful AI Assistant";
             HumanMessage "1+1"; AIMessage "2"; HumanMessage "What is 4+4?" ].
Proof.
  intros ep self.
  destruct (format_messages_of_literals ep
              [ {[ "q" := "1+1"; "a" := "2" ]} ]
              [ SystemMessage "You are a helpful AI Assistant" ]
              [ HumanMessage "What is 4+4?" ]) as (_ & Hform).
  apply (Hform {[ "input" := "ignored" ]}
           [ [ HumanMessage "1+1"; AIMessage "2" ] ]).
  constructor; [vm_compute; reflexivity|constructor].
Defined.

(** ** The dump at work *)


